(** * PyMechTurk: QuestionForm / AnswerKey XML generation and credential loading

    A shallow embedding of [pymechturk/qualification/xml_generator.py] and of
    [pymechturk/config.py].

    Conventions of the embedding.
    - A Python [str] is a [string]; its characters are the code points 0..255.
    - A Python [int] is a [Z] (unbounded).
    - [Optional[T]] is [option T]; the truth value Python gives to an object in
      [if x:] is written out by [truthy_*].
    - An object's fields are a record; a method taking [self] and mutating it
      is a function from the record to the new record.  A method that can
      raise returns the state it leaves behind together with its outcome.
    - The class attribute [Question._ID] is process-wide state, threaded
      explicitly through every construction of a [Question].
    - [xml.etree.ElementTree] and [xml.dom.minidom] belong to the Python
      standard library; the parts [to_string] runs through are modelled in
      [Module ET] and [Module minidom]. *)

From Stdlib Require Import String Ascii List ZArith Bool Lia Sorted.
From Stdlib Require Import DecimalString DecimalZ.
Import ListNotations.

Set Warnings "-register-all".

Open Scope string_scope.
Open Scope Z_scope.

(* ================================================================== *)
(** ** Python values, exceptions and the string methods the code calls *)
(* ================================================================== *)

Module Py.

(** Exceptions the modelled code can raise. *)
Inductive exn : Type :=
| TypeError (msg : string)
| AssertionError (msg : string)
| Exception (msg : string)
| KeyError (key : string)
| ExpatError
| OSError (path : string).

(** Outcome of a call: a value or a raised exception. *)
Inductive Result (A : Type) : Type :=
| Ok (a : A)
| Raise (e : exn).

Arguments Ok {A} a.
Arguments Raise {A} e.

Definition bind {A B : Type} (r : Result A) (k : A -> Result B) : Result B :=
  match r with
  | Ok a => k a
  | Raise e => Raise e
  end.

Definition fmap {A B : Type} (f : A -> B) (r : Result A) : Result B :=
  bind r (fun a => Ok (f a)).

Definition is_ok {A : Type} (r : Result A) : bool :=
  match r with Ok _ => true | Raise _ => false end.

(** What [elem.text] can hold in this program: [None], a [str], or (through
    [SelectionAnswer]) an [int]. *)
Inductive obj : Type :=
| PyNone
| PyStr (s : string)
| PyInt (n : Z).

(** Truth value of a [str]: non-empty. *)
Definition truthy_str (s : string) : bool :=
  match s with
  | EmptyString => false
  | String _ _ => true
  end.

(** Truth value of an [int]: non-zero. *)
Definition truthy_int (n : Z) : bool := negb (n =? 0).

Definition truthy_opt_str (o : option string) : bool :=
  match o with
  | None => false
  | Some s => truthy_str s
  end.

Definition truthy_opt_int (o : option Z) : bool :=
  match o with
  | None => false
  | Some n => truthy_int n
  end.

Definition truthy (o : obj) : bool :=
  match o with
  | PyNone => false
  | PyStr s => truthy_str s
  | PyInt n => truthy_int n
  end.

(** The builtin [any] on a list of truth values. *)
Definition any (l : list bool) : bool := existsb (fun b => b) l.

(** [str(n)] for an [int]: decimal digits, with a leading ['-'] when negative. *)
Definition str (n : Z) : string := NilZero.string_of_int (Z.to_int n).

(** The characters the string literals of the code need and that cannot be
    typed inside a literal here. *)
Definition newline_char : ascii := ascii_of_nat 10.
Definition cr_char : ascii := ascii_of_nat 13.
Definition tab_char : ascii := ascii_of_nat 9.
Definition dquote_char : ascii := ascii_of_nat 34.
Definition newline : string := String newline_char "".
Definition dquote : string := String dquote_char "".

(** [text.replace(old, new)] where [old] is a one-character string: every
    occurrence of the character is replaced, left to right. *)
Fixpoint replace (old : ascii) (new : string) (text : string) : string :=
  match text with
  | EmptyString => EmptyString
  | String c rest =>
      if Ascii.eqb c old then new ++ replace old new rest
      else String c (replace old new rest)
  end.

(** [s.split(sep)] where [sep] is a one-character string: the list of
    segments between separators; never empty. *)
Fixpoint split (sep : ascii) (s : string) : list string :=
  match s with
  | EmptyString => [EmptyString]
  | String c rest =>
      if Ascii.eqb c sep then EmptyString :: split sep rest
      else match split sep rest with
           | seg :: segs => String c seg :: segs
           | [] => [String c EmptyString]
           end
  end.

(** [l[-1]] on a list of strings known to be non-empty. *)
Definition last_segment (l : list string) : string := last l EmptyString.

(** [' ' * n]: the empty string when [n <= 0]. *)
Definition spaces (n : Z) : string :=
  string_of_list_ascii (repeat " "%char (Z.to_nat n)).

(** Every character of [s] satisfies [p]. *)
Fixpoint all_chars (p : ascii -> bool) (s : string) : bool :=
  match s with
  | EmptyString => true
  | String c rest => p c && all_chars p rest
  end.

(** [text[1:]]. *)
Definition drop_first (s : string) : string :=
  match s with
  | EmptyString => EmptyString
  | String _ rest => rest
  end.

(** [text[n:]] for [n >= 0]. *)
Fixpoint drop (n : nat) (s : string) : string :=
  match n, s with
  | O, _ => s
  | S k, EmptyString => EmptyString
  | S k, String _ rest => drop k rest
  end.

(** A [dict] with [str] keys, in insertion order. *)
Definition dict (V : Type) : Type := list (string * V).

(** [d[k] = v]: overwrite in place when [k] is present, append otherwise. *)
Fixpoint dict_set {V : Type} (k : string) (v : V) (d : dict V) : dict V :=
  match d with
  | [] => [(k, v)]
  | (k', v') :: rest =>
      if String.eqb k' k then (k, v) :: rest else (k', v') :: dict_set k v rest
  end.

(** [d[k]], raising [KeyError] when absent. *)
Fixpoint dict_get {V : Type} (k : string) (d : dict V) : Result V :=
  match d with
  | [] => Raise (KeyError k)
  | (k', v) :: rest => if String.eqb k' k then Ok v else dict_get k rest
  end.

(** [k in d]. *)
Definition dict_mem {V : Type} (k : string) (d : dict V) : bool :=
  existsb (fun kv => String.eqb (fst kv) k) d.

End Py.

Import Py.

Declare Scope py_scope.
Notation "x <- c1 ;; c2" := (Py.bind c1 (fun x => c2))
  (at level 61, c1 at next level, right associativity) : py_scope.
Open Scope py_scope.

(* ================================================================== *)
(** ** xml.etree.ElementTree: elements and [tostring]                   *)
(* ================================================================== *)

Module ET.

(** [ET.Element]: tag, attributes (a [dict] of [str]), text, children.
    No element of this program has a tail. *)
Inductive Element : Type :=
| Elem (tag : string) (attrib : dict string) (text : obj)
       (children : list Element).

Definition tag (e : Element) : string :=
  match e with Elem t _ _ _ => t end.
Definition attrib (e : Element) : dict string :=
  match e with Elem _ a _ _ => a end.
Definition text (e : Element) : obj :=
  match e with Elem _ _ x _ => x end.
Definition children (e : Element) : list Element :=
  match e with Elem _ _ _ c => c end.

(** [ET.Element(tag)] followed by [element.text = text]. *)
Definition text_element (tag : string) (text : obj) : Element :=
  Elem tag [] text [].

(** Some node of the tree (the element itself included) carries tag [t]. *)
Fixpoint has_tag (t : string) (e : Element) : bool :=
  match e with
  | Elem tg _ _ cs =>
      String.eqb tg t
      || (fix any_child (l : list Element) : bool :=
            match l with
            | [] => false
            | c :: l' => has_tag t c || any_child l'
            end) cs
  end.

(** Every node of the tree (the element itself included) satisfies [p]. *)
Fixpoint forall_nodes (p : Element -> bool) (e : Element) : bool :=
  match e with
  | Elem _ _ _ cs =>
      p e
      && (fix all_children (l : list Element) : bool :=
            match l with
            | [] => true
            | c :: l' => forall_nodes p c && all_children l'
            end) cs
  end.

(** [_raise_serialization_error(text)] for an [int]. *)
Definition _raise_serialization_error (n : Z) : exn :=
  TypeError ("cannot serialize " ++ str n ++ " (type int)").

(** [_escape_cdata]: the three replacements on a [str]; on an [int] the test
    ["&" in text] raises [TypeError], which is turned into the serialization
    error.  ([if c in text: text = text.replace(c, r)] is [text.replace(c, r)].) *)
Definition escape_cdata_str (s : string) : string :=
  replace ">" "&gt;" (replace "<" "&lt;" (replace "&" "&amp;" s)).

Definition _escape_cdata (text : obj) : Result string :=
  match text with
  | PyStr s => Ok (escape_cdata_str s)
  | PyInt n => Raise (_raise_serialization_error n)
  | PyNone => Raise (TypeError "cannot serialize None (type NoneType)")
  end.

(** [_escape_attrib] on a [str] (every attribute value of this program is one). *)
Definition _escape_attrib (s : string) : string :=
  replace tab_char "&#09;"
    (replace newline_char "&#10;"
       (replace cr_char "&#13;"
          (replace dquote_char "&quot;"
             (replace ">" "&gt;" (replace "<" "&lt;" (replace "&" "&amp;" s)))))).

(** The attribute part of a start tag: [ k="v"] for every item, in order. *)
Definition serialize_items (items : dict string) : string :=
  String.concat ""
    (map (fun kv => " " ++ fst kv ++ "=" ++ dquote ++ _escape_attrib (snd kv) ++ dquote)
         items).

(** [_serialize_xml] with [short_empty_elements=True], for string tags
    without a namespace (each is its own qname), in document order. *)
Fixpoint _serialize_xml (elem : Element) : Result string :=
  match elem with
  | Elem tg items txt cs =>
      let start := "<" ++ tg ++ serialize_items items in
      if truthy txt || negb (Nat.eqb (List.length cs) 0) then
        t <- (if truthy txt then _escape_cdata txt else Ok "") ;;
        body <- (fix serialize_children (l : list Element) : Result string :=
                   match l with
                   | [] => Ok ""
                   | e :: l' =>
                       s <- _serialize_xml e ;;
                       r <- serialize_children l' ;;
                       Ok (s ++ r)
                   end) cs ;;
        Ok (start ++ ">" ++ t ++ body ++ "</" ++ tg ++ ">")
      else Ok (start ++ " />")
  end.

(** The declaration [ElementTree.write] puts first for [encoding="ascii"]. *)
Definition xml_declaration : string :=
  "<?xml version='1.0' encoding='ascii'?>" ++ newline.

(** Encoding to ASCII with [errors="xmlcharrefreplace"]: a character above
    127 becomes its numeric character reference. *)
Definition charref (c : ascii) : string :=
  if Nat.ltb (nat_of_ascii c) 128 then String c ""
  else "&#" ++ str (Z.of_nat (nat_of_ascii c)) ++ ";".

Fixpoint ascii_encode (s : string) : string :=
  match s with
  | EmptyString => EmptyString
  | String c rest => charref c ++ ascii_encode rest
  end.

(** [ET.tostring(tree, encoding="ascii", method="xml").decode("ascii")]. *)
Definition tostring (tree : Element) : Result string :=
  body <- _serialize_xml tree ;;
  Ok (ascii_encode (xml_declaration ++ body)).

End ET.

(* ================================================================== *)
(** ** xml.dom.minidom: [parseString(...).toprettyxml(indent=...)]      *)
(* ================================================================== *)

Module minidom.

(** DOM nodes: elements and text nodes. *)
Inductive Node : Type :=
| ElementNode (tagName : string) (attrs : dict string) (childNodes : list Node)
| TextNode (data : string).

(** Characters an XML 1.0 document may contain: tab, line feed, carriage
    return and everything from the space on; the parser rejects the others. *)
Definition xml_char (c : ascii) : bool :=
  let n := nat_of_ascii c in
  Nat.eqb n 9 || Nat.eqb n 10 || Nat.eqb n 13 || Nat.leb 32 n.

Definition xml_chars (s : string) : bool := all_chars xml_char s.

(** End-of-line handling of the parser in character data: CR LF and a lone
    CR are read as LF. *)
Fixpoint normalize_eol (s : string) : string :=
  match s with
  | EmptyString => EmptyString
  | String c rest =>
      if Ascii.eqb c cr_char then
        match rest with
        | String c' _ =>
            if Ascii.eqb c' newline_char then normalize_eol rest
            else String newline_char (normalize_eol rest)
        | EmptyString => String newline_char EmptyString
        end
      else String c (normalize_eol rest)
  end.

(** [parseString] applied to what [ET.tostring] wrote for the tree: the
    document element.  A non-empty [str] text becomes a leading text node;
    nothing was written for a text that is [None] or the [int] 0 (with
    another [int], [ET.tostring] has raised and the parser is not reached).
    Character references give the attribute values back as they were.  The
    parser fails on a character XML does not allow. *)
Fixpoint parse_serialized (e : ET.Element) : Result Node :=
  match e with
  | ET.Elem tg items txt cs =>
      kids <- (fix parse_children (l : list ET.Element) : Result (list Node) :=
                 match l with
                 | [] => Ok []
                 | c :: l' =>
                     n <- parse_serialized c ;;
                     ns <- parse_children l' ;;
                     Ok (n :: ns)
                 end) cs ;;
      if forallb (fun kv => xml_chars (snd kv)) items then
        match txt with
        | PyStr s =>
            if xml_chars s then
              if truthy_str s
              then Ok (ElementNode tg items (TextNode (normalize_eol s) :: kids))
              else Ok (ElementNode tg items kids)
            else Raise ExpatError
        | PyNone | PyInt _ => Ok (ElementNode tg items kids)
        end
      else Raise ExpatError
  end.

(** [_write_data] (as in CPython 3.11): the four replacements, nothing
    written for empty data. *)
Definition _write_data (data : string) : string :=
  replace ">" "&gt;"
    (replace dquote_char "&quot;" (replace "<" "&lt;" (replace "&" "&amp;" data))).

Definition write_attrs (attrs : dict string) : string :=
  String.concat ""
    (map (fun kv => " " ++ fst kv ++ "=" ++ dquote ++ _write_data (snd kv) ++ dquote)
         attrs).

(** [Element.writexml] and [Text.writexml]. *)
Fixpoint writexml (indent addindent newl : string) (n : Node) : string :=
  match n with
  | TextNode data => _write_data (indent ++ data ++ newl)
  | ElementNode tagName attrs childNodes =>
      let start := indent ++ "<" ++ tagName ++ write_attrs attrs in
      match childNodes with
      | [] => start ++ "/>" ++ newl
      | [TextNode data] =>
          start ++ ">" ++ _write_data data ++ "</" ++ tagName ++ ">" ++ newl
      | _ =>
          start ++ ">" ++ newl
          ++ (fix write_children (l : list Node) : string :=
                match l with
                | [] => ""
                | c :: l' =>
                    writexml (indent ++ addindent) addindent newl c
                    ++ write_children l'
                end) childNodes
          ++ indent ++ "</" ++ tagName ++ ">" ++ newl
      end
  end.

(** [Document.toprettyxml(indent)]: the declaration, then the document
    element, with [newl] a line feed. *)
Definition toprettyxml (indent : string) (root : Node) : string :=
  "<?xml version=" ++ dquote ++ "1.0" ++ dquote ++ " ?>" ++ newline
  ++ writexml "" indent newline root.

End minidom.

(* ================================================================== *)
(** ** re: the one substitution [to_string] performs                    *)
(* ================================================================== *)

Module re.

(** Matching [.*\?>] at the start of [s], greedily: the length of the longest
    prefix without a line feed in its [.*] part that ends in [?>]. *)
Fixpoint match_rest (s : string) : option nat :=
  match s with
  | EmptyString => None
  | String c rest =>
      if Ascii.eqb c newline_char then None
      else match match_rest rest with
           | Some n => Some (S n)
           | None =>
               if Ascii.eqb c "?" && prefix ">" rest then Some 2%nat else None
           end
  end.

(** Scanning left to right; [skip] characters of a match are still to drop. *)
Fixpoint sub_from (skip : nat) (s : string) : string :=
  match s with
  | EmptyString => EmptyString
  | String c rest =>
      match skip with
      | S k => sub_from k rest
      | O =>
          if prefix "<?xml" s then
            match match_rest (drop 5 s) with
            | Some n => sub_from (4 + n) rest
            | None => String c (sub_from 0 rest)
            end
          else String c (sub_from 0 rest)
      end
  end.

(** [re.sub(r"<\?xml.*\?>", '', text)]. *)
Definition sub_xml_declaration (text : string) : string := sub_from 0 text.

End re.

(* ================================================================== *)
(** ** pymechturk/qualification/xml_generator.py                        *)
(* ================================================================== *)

(** *** class XMLWrapper *)
Module XMLWrapper.

(** The fields [__init__] sets, and the name of the object's class
    ([self.__class__.__name__]). *)
Record t : Type := mk {
  class_name : string;
  _elements : list ET.Element;
  _attributes : dict string
}.

Definition __init__ (cls : string) : t :=
  {| class_name := cls; _elements := []; _attributes := [] |}.

Definition __len__ (self : t) : nat := List.length (_elements self).

(** [self._elements.append(element)]. *)
Definition append_element (element : ET.Element) (self : t) : t :=
  {| class_name := class_name self;
     _elements := (_elements self ++ [element])%list;
     _attributes := _attributes self |}.

(** [self._attributes[k] = v]. *)
Definition set_attribute (k v : string) (self : t) : t :=
  {| class_name := class_name self;
     _elements := _elements self;
     _attributes := dict_set k v (_attributes self) |}.

(** The table of [_encode_for_url]; each [char] is a one-character string. *)
Definition encoder : list (ascii * string) :=
  [ ("$"%char, "%24");
    ("&"%char, "%26");
    ("+"%char, "%2B");
    (","%char, "%2C");
    ("/"%char, "%2F");
    (":"%char, "%3A");
    (";"%char, "%3B");
    ("?"%char, "%3F");
    ("@"%char, "%40") ].

(** [for char, code in encoder: text = text.replace(char, code)]. *)
Definition _encode_for_url (text : string) : string :=
  fold_left (fun text cc => replace (fst cc) (snd cc) text) encoder text.

Definition compile_elements (self : t) (root_name : option string) : ET.Element :=
  let root_name :=
    match root_name with
    | Some n => if truthy_str n then n else class_name self
    | None => class_name self
    end in
  ET.Elem root_name (_attributes self) PyNone (_elements self).

(** [to_string].  The parsed document of the [formatted] branch is obtained
    from the tree [tree_str] was written from. *)
Definition to_string (self : t) (root_name : option string)
    (url_safe formatted : bool) (indent : Z) : Result string :=
  let tree := compile_elements self root_name in
  tree_str <- ET.tostring tree ;;
  tree_str <- (if formatted then
                 doc <- minidom.parse_serialized tree ;;
                 Ok (minidom.toprettyxml (spaces indent) doc)
               else Ok tree_str) ;;
  let tree_str := drop_first (re.sub_xml_declaration tree_str) in
  let tree_str := if url_safe then _encode_for_url tree_str else tree_str in
  Ok tree_str.

(** [to_string] with its defaults: class name as root, not URL-safe,
    formatted, indent 4. *)
Definition to_string_default (self : t) : Result string :=
  to_string self None false true 4.

End XMLWrapper.

(** *** class Content(XMLWrapper) *)
Module Content.

Definition t : Type := XMLWrapper.t.

Definition __init__ : t := XMLWrapper.__init__ "Content".

Definition add_title (title : string) (self : t) : t :=
  let element := ET.text_element "Title" (PyStr title) in
  XMLWrapper.append_element element self.

Definition add_text (text : string) (self : t) : t :=
  let element := ET.text_element "Text" (PyStr text) in
  XMLWrapper.append_element element self.

Definition add_formatted_text (text : string) (self : t) : t :=
  let element :=
    ET.text_element "FormattedContent" (PyStr ("<![CDATA[" ++ text ++ "]]>")) in
  XMLWrapper.append_element element self.

Definition add_list (items : list string) (self : t) : t :=
  let list_of_elements :=
    ET.Elem "List" [] PyNone
      (map (fun i => ET.text_element "ListItem" (PyStr i)) items) in
  XMLWrapper.append_element list_of_elements self.

Definition add_image (url : string) (alt_text : string) (self : t) : t :=
  let name := ET.text_element "Type" (PyStr "image") in
  let subtype :=
    if truthy_str (last_segment (split "." url))
    then [ET.text_element "SubType" (PyStr (last_segment (split "." url)))]
    else [] in
  let mime_type_elem := ET.Elem "MimeType" [] PyNone (name :: subtype) in
  let data_url_elem := ET.text_element "DataURL" (PyStr url) in
  let alt_text_elem := ET.text_element "AltText" (PyStr alt_text) in
  let element :=
    ET.Elem "Binary" [] PyNone [mime_type_elem; data_url_elem; alt_text_elem] in
  XMLWrapper.append_element element self.

(** The default of [alt_text]. *)
Definition add_image_default (url : string) (self : t) : t :=
  add_image url "image" self.

(** A call of one of the builder methods. *)
Inductive call : Type :=
| Add_title (title : string)
| Add_text (text : string)
| Add_formatted_text (text : string)
| Add_list (items : list string)
| Add_image (url alt_text : string).

Definition after (c : call) (self : t) : t :=
  match c with
  | Add_title title => add_title title self
  | Add_text text => add_text text self
  | Add_formatted_text text => add_formatted_text text self
  | Add_list items => add_list items self
  | Add_image url alt_text => add_image url alt_text self
  end.

(** A chain of calls, [Content().add_title(...).add_text(...)...]. *)
Definition after_all (cs : list call) (self : t) : t :=
  fold_left (fun self c => after c self) cs self.

End Content.

(** *** class FreeTextAnswer(Answer) *)
Module FreeTextAnswer.

Definition t : Type := XMLWrapper.t.

Definition _create_reg_exp (reg_exp : string) (error_text : option string)
  : ET.Element :=
  let attrib := dict_set "regex" reg_exp [] in
  let attrib :=
    match error_text with
    | Some e => if truthy_str e then dict_set "errorText" e attrib else attrib
    | None => attrib
    end in
  ET.Elem "AnswerFormatRegex" attrib PyNone [].

Definition _add_length_constraints (min_length max_length : option Z)
  : ET.Element :=
  let attrib := [] in
  let attrib :=
    match min_length with
    | Some n => if truthy_int n then dict_set "minLength" (str n) attrib else attrib
    | None => attrib
    end in
  let attrib :=
    match max_length with
    | Some n => if truthy_int n then dict_set "maxLength" (str n) attrib else attrib
    | None => attrib
    end in
  ET.Elem "Length" attrib PyNone [].

Definition _create_is_numeric (min_val max_val : option Z) : ET.Element :=
  let attrib := [] in
  let attrib :=
    match min_val with
    | Some n => if truthy_int n then dict_set "minValue" (str n) attrib else attrib
    | None => attrib
    end in
  let attrib :=
    match max_val with
    | Some n => if truthy_int n then dict_set "maxValue" (str n) attrib else attrib
    | None => attrib
    end in
  ET.Elem "IsNumeric" attrib PyNone [].

Definition _add_constraints (reg_exp error_text : option string)
    (min_length max_length : option Z) (is_numeric : bool)
    (min_val max_val : option Z) (self : t) : t :=
  let constraints : list ET.Element := [] in
  let constraints :=
    match reg_exp with
    | Some r =>
        if truthy_str r && negb is_numeric
        then (constraints ++ [_create_reg_exp r error_text])%list
        else constraints
    | None => constraints
    end in
  let constraints :=
    if any [truthy_opt_int min_length; truthy_opt_int max_length]
       && negb is_numeric
    then (constraints ++ [_add_length_constraints min_length max_length])%list
    else constraints in
  let constraints :=
    if is_numeric
    then (constraints ++ [_create_is_numeric min_val max_val])%list
    else constraints in
  XMLWrapper.append_element (ET.Elem "Constraints" [] PyNone constraints) self.

Definition _set_number_of_lines (num_lines : Z) (self : t) : t :=
  XMLWrapper.append_element
    (ET.text_element "NumberOfLinesSuggestion" (PyStr (str num_lines))) self.

Definition _add_text (text : string) (self : t) : t :=
  XMLWrapper.append_element (ET.text_element "DefaultText" (PyStr text)) self.

Definition __init__ (default_text : option string) (lines_in_box : option Z)
    (reg_exp error_text : option string) (min_length max_length : option Z)
    (is_numeric : bool) (min_val max_val : option Z) : t :=
  let self := XMLWrapper.__init__ "FreeTextAnswer" in
  let self :=
    if any [truthy_opt_str reg_exp; truthy_opt_int min_length;
            truthy_opt_int max_length; is_numeric]
    then _add_constraints reg_exp error_text min_length max_length is_numeric
           min_val max_val self
    else self in
  let self :=
    match default_text with
    | Some d => if truthy_str d then _add_text d self else self
    | None => self
    end in
  let self :=
    match lines_in_box with
    | Some n => if truthy_int n then _set_number_of_lines n self else self
    | None => self
    end in
  self.

End FreeTextAnswer.

(** *** class SelectionAnswer(Answer) *)
Module SelectionAnswer.

Definition t : Type := XMLWrapper.t.

(** [element.text = number]: the [int] itself is stored, not its [str]. *)
Definition _add_min_selections (number : Z) (self : t) : t :=
  XMLWrapper.append_element
    (ET.text_element "MinSelectionCount" (PyInt number)) self.

Definition _add_max_selections (number : Z) (self : t) : t :=
  XMLWrapper.append_element
    (ET.text_element "MaxSelectionCount" (PyInt number)) self.

Definition _add_answer_style (style : string) (self : t) : t :=
  XMLWrapper.append_element
    (ET.text_element "StyleSuggestion" (PyStr style)) self.

Definition _add_selections (selections : dict string) (self : t) : t :=
  let element :=
    ET.Elem "Selections" [] PyNone
      (map (fun kv =>
              ET.Elem "Selection" [] PyNone
                [ET.text_element "SelectionIdentifier" (PyStr (fst kv));
                 ET.text_element "Text" (PyStr (snd kv))])
           selections) in
  XMLWrapper.append_element element self.

Definition __init__ (selections : dict string) (answer_style : option string)
    (min_selections max_selections : option Z) : t :=
  let self := XMLWrapper.__init__ "SelectionAnswer" in
  let self :=
    match min_selections with
    | Some n => if truthy_int n then _add_min_selections n self else self
    | None => self
    end in
  let self :=
    match max_selections with
    | Some n => if truthy_int n then _add_max_selections n self else self
    | None => self
    end in
  let self :=
    match answer_style with
    | Some s => if truthy_str s then _add_answer_style s self else self
    | None => self
    end in
  _add_selections selections self.

End SelectionAnswer.

(** *** class Question(XMLWrapper) *)
Module Question.

Record t : Type := mk {
  base : XMLWrapper.t;
  _question_id : string
}.

(** The class attribute [_ID = 1]: its value when the module is loaded. *)
Definition _ID_initial : Z := 1.

(** The property [id]. *)
Definition id (self : t) : string := _question_id self.

Definition append_element (element : ET.Element) (self : t) : t :=
  {| base := XMLWrapper.append_element element (base self);
     _question_id := _question_id self |}.

(** [_add_id]: also performs [self.__class__._ID += 1]; the second component
    is the new value of the class attribute. *)
Definition _add_id (self : t) (_ID : Z) : t * Z :=
  let element := ET.text_element "QuestionIdentifier" (PyStr (_question_id self)) in
  let _ID := _ID + 1 in
  (append_element element self, _ID).

Definition _add_name (name : string) (self : t) : t :=
  append_element (ET.text_element "DisplayName" (PyStr name)) self.

Definition _add_is_required (is_required : bool) (self : t) : t :=
  append_element
    (ET.text_element "IsRequired" (PyStr (if is_required then "true" else "false")))
    self.

Definition _add_content (content : Content.t) (self : t) : t :=
  append_element (XMLWrapper.compile_elements content (Some "QuestionContent")) self.

Definition _add_answer (answer : XMLWrapper.t) (self : t) : t :=
  let element :=
    ET.Elem "AnswerSpecification" [] PyNone
      [XMLWrapper.compile_elements answer None] in
  append_element element self.

(** [question_id if question_id else f"QuestionID_{self._ID}"]. *)
Definition choose_id (question_id : option string) (_ID : Z) : string :=
  match question_id with
  | Some q => if truthy_str q then q else "QuestionID_" ++ str _ID
  | None => "QuestionID_" ++ str _ID
  end.

(** The constructor, in the state [_ID] of the class attribute. *)
Definition __init__ (content : Content.t) (answer : XMLWrapper.t)
    (name : option string) (is_required : bool) (question_id : option string)
    (_ID : Z) : t * Z :=
  let self :=
    {| base := XMLWrapper.__init__ "Question";
       _question_id := choose_id question_id _ID |} in
  let '(self, _ID) := _add_id self _ID in
  let self :=
    match name with
    | Some n => if truthy_str n then _add_name n self else self
    | None => self
    end in
  let self := _add_is_required is_required self in
  let self := _add_content content self in
  let self := _add_answer answer self in
  (self, _ID).

(** The arguments of one construction. *)
Record args : Type := mk_args {
  content : Content.t;
  answer : XMLWrapper.t;
  name : option string;
  is_required : bool;
  question_id : option string
}.

Definition construct (a : args) (_ID : Z) : t * Z :=
  __init__ (content a) (answer a) (name a) (is_required a) (question_id a) _ID.

(** The identifier of this construction comes from the counter: no
    [question_id] was given, or an empty one. *)
Definition auto_assigned (a : args) : bool := negb (truthy_opt_str (question_id a)).

(** Constructions performed one after the other in one process, starting
    with the class attribute at [_ID]: the questions built, in order, and
    the final value of the class attribute. *)
Fixpoint construct_all (l : list args) (_ID : Z) : list t * Z :=
  match l with
  | [] => ([], _ID)
  | a :: l' =>
      let '(q, _ID) := construct a _ID in
      let '(qs, _ID) := construct_all l' _ID in
      (q :: qs, _ID)
  end.

(** The identifiers of the questions among them whose identifier was taken
    from the counter, in construction order. *)
Definition auto_ids (l : list args) (_ID : Z) : list string :=
  map (fun aq => id (snd aq))
    (filter (fun aq => auto_assigned (fst aq))
       (combine l (fst (construct_all l _ID)))).

(** The values of the class attribute those constructions read. *)
Fixpoint auto_numbers (l : list args) (_ID : Z) : list Z :=
  match l with
  | [] => []
  | a :: l' =>
      ((if auto_assigned a then [_ID] else [])
       ++ auto_numbers l' (snd (construct a _ID)))%list
  end.

End Question.

(** *** class QuestionForm(XMLWrapper) *)
Module QuestionForm.

Definition t : Type := XMLWrapper.t.

Definition __init__ : t :=
  XMLWrapper.set_attribute "xmlns"
    "http://mechanicalturk.amazonaws.com/AWSMechanicalTurkDataSchemas/2017-11-06/QuestionForm.xsd"
    (XMLWrapper.__init__ "QuestionForm").

Definition add_overview (overview : Content.t) (self : t) : t :=
  XMLWrapper.append_element
    (XMLWrapper.compile_elements overview (Some "Overview")) self.

Definition add_question (question : Question.t) (self : t) : t :=
  XMLWrapper.append_element
    (XMLWrapper.compile_elements (Question.base question) (Some "Question")) self.

(** A call of one of the two methods. *)
Inductive call : Type :=
| Add_overview (overview : Content.t)
| Add_question (question : Question.t).

Definition after (c : call) (self : t) : t :=
  match c with
  | Add_overview overview => add_overview overview self
  | Add_question question => add_question question self
  end.

Definition after_all (cs : list call) (self : t) : t :=
  fold_left (fun self c => after c self) cs self.

End QuestionForm.

(** *** class AnswerKey(XMLWrapper) *)
Module AnswerKey.

Record t : Type := mk {
  base : XMLWrapper.t;
  _is_score_added : bool
}.

Definition __init__ : t :=
  {| base :=
       XMLWrapper.set_attribute "xmlns"
         "http://mechanicalturk.amazonaws.com/AWSMechanicalTurkDataSchemas/2005-10-01/AnswerKey.xsd"
         (XMLWrapper.__init__ "AnswerKey");
     _is_score_added := false |}.

(** [add_max_score]: the object as the call leaves it, and the outcome.  The
    [assert] is the first statement; when it fails nothing has been done. *)
Definition add_max_score (score : Z) (self : t) : t * Result unit :=
  if negb (_is_score_added self) then
    let max_score := ET.text_element "MaximumSummedScore" (PyStr (str score)) in
    let percentage := ET.Elem "PercentageMapping" [] PyNone [max_score] in
    let element := ET.Elem "QualificationValueMapping" [] PyNone [percentage] in
    ({| base := XMLWrapper.append_element element (base self);
        _is_score_added := true |}, Ok tt)
  else (self, Raise (AssertionError "Score was already added to the answers")).

Definition _create_question_id (question_id : string) : ET.Element :=
  ET.text_element "QuestionIdentifier" (PyStr question_id).

(** [keys] is a [Dict[int, List[str]]]: its items in insertion order. *)
Definition _create_question_keys (keys : list (Z * list string)) : list ET.Element :=
  map (fun item =>
         ET.Elem "AnswerOption" [] PyNone
           (map (fun a => ET.text_element "SelectionIdentifier" (PyStr a)) (snd item)
            ++ [ET.text_element "AnswerScore" (PyStr (str (fst item)))])%list)
      keys.

Definition add_question_keys (question : Question.t)
    (keys : list (Z * list string)) (self : t) : t :=
  let element :=
    ET.Elem "Question" [] PyNone
      (_create_question_id (Question.id question) :: _create_question_keys keys) in
  {| base := XMLWrapper.append_element element (base self);
     _is_score_added := _is_score_added self |}.

(** A call of one of the two public methods. *)
Inductive call : Type :=
| Add_max_score (score : Z)
| Add_question_keys (question : Question.t) (keys : list (Z * list string)).

(** The object after a call, whether the call returned or raised. *)
Definition after (c : call) (self : t) : t :=
  match c with
  | Add_max_score score => fst (add_max_score score self)
  | Add_question_keys question keys => add_question_keys question keys self
  end.

(** The object after a sequence of calls, the caller going on after a call
    that raised. *)
Definition after_all (cs : list call) (self : t) : t :=
  fold_left (fun self c => after c self) cs self.

Definition to_string (self : t) (root_name : option string)
    (url_safe formatted : bool) (indent : Z) : Result string :=
  XMLWrapper.to_string (base self) root_name url_safe formatted indent.

End AnswerKey.

(* ================================================================== *)
(** ** pymechturk/config.py: class AmazonIAMUser                        *)
(* ================================================================== *)

Module AmazonIAMUser.

(** A field holds the [dataclasses.field(...)] object [__init__] stored, or
    the string a later [_update_fields] assigned. *)
Inductive field_value : Type :=
| Field_default
| Value (s : string).

Record t : Type := mk {
  user_name : field_value;
  password : field_value;
  access_key_id : field_value;
  secret_access_key : field_value;
  console_login_link : field_value
}.

Definition __init__ : t :=
  {| user_name := Field_default;
     password := Field_default;
     access_key_id := Field_default;
     secret_access_key := Field_default;
     console_login_link := Field_default |}.

(** [_update_fields]: five assignments in order; a missing key raises after
    the assignments before it were made. *)
Definition _update_fields (credentials : dict string) (self : t) : t * Result unit :=
  match dict_get "User name" credentials with
  | Raise e => (self, Raise e)
  | Ok v1 =>
  let self := {| user_name := Value v1; password := password self;
                 access_key_id := access_key_id self;
                 secret_access_key := secret_access_key self;
                 console_login_link := console_login_link self |} in
  match dict_get "Password" credentials with
  | Raise e => (self, Raise e)
  | Ok v2 =>
  let self := {| user_name := user_name self; password := Value v2;
                 access_key_id := access_key_id self;
                 secret_access_key := secret_access_key self;
                 console_login_link := console_login_link self |} in
  match dict_get "Access key ID" credentials with
  | Raise e => (self, Raise e)
  | Ok v3 =>
  let self := {| user_name := user_name self; password := password self;
                 access_key_id := Value v3;
                 secret_access_key := secret_access_key self;
                 console_login_link := console_login_link self |} in
  match dict_get "Secret access key" credentials with
  | Raise e => (self, Raise e)
  | Ok v4 =>
  let self := {| user_name := user_name self; password := password self;
                 access_key_id := access_key_id self;
                 secret_access_key := Value v4;
                 console_login_link := console_login_link self |} in
  match dict_get "Console login link" credentials with
  | Raise e => (self, Raise e)
  | Ok v5 =>
  let self := {| user_name := user_name self; password := password self;
                 access_key_id := access_key_id self;
                 secret_access_key := secret_access_key self;
                 console_login_link := Value v5 |} in
  (self, Ok tt)
  end end end end end.

Section Loader.

(** The outside of the program: what [open(path, 'r')] finds, and what
    [next(csv.DictReader(file).__iter__())] and [json.load(file)] make of a
    file's contents. *)
Variable file_contents : string -> Result string.
Variable csv_first_row : string -> Result (dict string).
Variable json_load : string -> Result (dict string).

(** The paths given to [open], oldest first. *)
Definition opened : Type := list string.

Definition _load_csv (path : string) (log : opened) : opened * Result (dict string) :=
  ((log ++ [path])%list, file <- file_contents path ;; csv_first_row file).

Definition _load_json (path : string) (log : opened) : opened * Result (dict string) :=
  ((log ++ [path])%list, file <- file_contents path ;; json_load file).

(** [file_path.split('.')[-1]]. *)
Definition extension (file_path : string) : string :=
  last_segment (split "." file_path).

(** [from_file]: the object and the log of opened paths as the call leaves
    them, and the outcome. *)
Definition from_file (file_path : string) (self : t) (log : opened)
  : t * opened * Result unit :=
  let extension := extension file_path in
  let '(log, credentials) :=
    if String.eqb extension "csv" then _load_csv file_path log
    else if String.eqb extension "json" then _load_json file_path log
    else (log, Raise (Exception "Unknown file extension")) in
  match credentials with
  | Raise e => (self, log, Raise e)
  | Ok credentials =>
      let '(self, r) := _update_fields credentials self in
      (self, log, r)
  end.

End Loader.

End AmazonIAMUser.

(* ================================================================== *)
(** ** Notions the properties are stated with                           *)
(* ================================================================== *)

(** The character is not ['<']. *)
Definition not_lt (c : ascii) : bool := negb (Ascii.eqb c "<").

(** The character is not ['.']. *)
Definition not_dot (c : ascii) : bool := negb (Ascii.eqb c ".").

(** URL-safe encoding as the specification words it: each of the nine
    reserved characters [$ & + , / : ; ? @] is replaced by its percent code,
    every other character is left as it is. *)
Module Spec.

Definition percent_code (c : ascii) : string :=
  if Ascii.eqb c "$" then "%24"
  else if Ascii.eqb c "&" then "%26"
  else if Ascii.eqb c "+" then "%2B"
  else if Ascii.eqb c "," then "%2C"
  else if Ascii.eqb c "/" then "%2F"
  else if Ascii.eqb c ":" then "%3A"
  else if Ascii.eqb c ";" then "%3B"
  else if Ascii.eqb c "?" then "%3F"
  else if Ascii.eqb c "@" then "%40"
  else String c "".

Fixpoint url_safe (text : string) : string :=
  match text with
  | EmptyString => EmptyString
  | String c rest => percent_code c ++ url_safe rest
  end.

(** One of the nine reserved characters. *)
Definition reserved (c : ascii) : bool :=
  existsb (Ascii.eqb c) ["$"; "&"; "+"; ","; "/"; ":"; ";"; "?"; "@"]%char.

End Spec.

(** The identifier the counter value [n] is formatted as. *)
Definition QuestionID_ (n : Z) : string := "QuestionID_" ++ str n.

(** Every attribute is [minValue] or [maxValue]. *)
Definition numeric_attr_keys (attrs : dict string) : bool :=
  forallb (fun kv => String.eqb (fst kv) "minValue" || String.eqb (fst kv) "maxValue")
    attrs.

(** No node tagged [t] carries the attribute [k]. *)
Definition no_attribute_on (t k : string) (e : ET.Element) : bool :=
  ET.forall_nodes
    (fun n => negb (String.eqb (ET.tag n) t) || negb (dict_mem k (ET.attrib n))) e.

(** A length bound that is 0 ([given]) or absent. *)
Definition zero_or_absent (given : bool) : option Z :=
  if given then Some 0 else None.

(** The text of the [QuestionIdentifier] of every [Question] node of a form. *)
Definition form_question_ids (form : QuestionForm.t) : list obj :=
  map (fun q => match ET.children q with
                | e :: _ => ET.text e
                | [] => PyNone
                end)
    (filter (fun e => String.eqb (ET.tag e) "Question") (XMLWrapper._elements form)).

(** Sample objects. *)
Definition some_content : Content.t := Content.add_text "?" Content.__init__.

Definition some_answer : XMLWrapper.t :=
  FreeTextAnswer.__init__ None None None None None None false None None.

Definition apple_banana : XMLWrapper.t :=
  SelectionAnswer.__init__ [("a", "Apple"); ("b", "Banana")] None (Some 1) (Some 1).

Definition no_file (path : string) : Result string := Raise (OSError path).

Definition no_record (contents : string) : Result (dict string) := Ok [].

(** Every path can be opened, and the loader finds a complete record. *)
Definition any_file (path : string) : Result string := Ok "contents".

Definition sample_record (contents : string) : Result (dict string) :=
  Ok [("User name", "alice"); ("Password", "secret"); ("Access key ID", "AKIA");
      ("Secret access key", "key"); ("Console login link", "https://link")].

(* ================================================================== *)
(** ** Notions for the further properties                               *)
(* ================================================================== *)

(** A tag the serializer writes as it is and that cannot be taken for the
    start of a declaration: not empty, not starting with ['{'] (a namespace)
    or ['?'], and without ['<']. *)
Definition plain_tag (t : string) : bool :=
  match t with
  | EmptyString => false
  | String c rest =>
      negb (Ascii.eqb c "{") && negb (Ascii.eqb c "?") && all_chars not_lt t
  end.

(** An attribute name the serializer writes as it is. *)
Definition plain_key (k : string) : bool :=
  negb (prefix "{" k) && all_chars not_lt k.

(** Every tag and attribute name of the tree is plain. *)
Definition plain_tree (e : ET.Element) : bool :=
  ET.forall_nodes
    (fun n => plain_tag (ET.tag n) && forallb (fun kv => plain_key (fst kv)) (ET.attrib n))
    e.

(** A text the serializer accepts: [None], a [str], or the [int] 0 (which it
    skips). *)
Definition serializable_text (n : ET.Element) : bool :=
  match ET.text n with
  | PyInt k => negb (truthy_int k)
  | _ => true
  end.

(** The tags of a list of elements, in order. *)
Definition tags (l : list ET.Element) : list string := map ET.tag l.

(** The tag of the fragment a builder call appends. *)
Definition fragment_tag (c : Content.call) : string :=
  match c with
  | Content.Add_title _ => "Title"
  | Content.Add_text _ => "Text"
  | Content.Add_formatted_text _ => "FormattedContent"
  | Content.Add_list _ => "List"
  | Content.Add_image _ _ => "Binary"
  end.

(** The number of elements of the list carrying tag [t]. *)
Definition count_tag (t : string) (l : list ET.Element) : nat :=
  List.length (filter (fun e => String.eqb (ET.tag e) t) l).

(** The substitution of [to_string] passes over the text [s], whatever
    follows it. *)
Definition untouched (s : string) : Prop :=
  forall t, re.sub_from 0 (s ++ t) = s ++ re.sub_from 0 t.

(** A tree with a namespace attribute, a text full of markup and a nested
    empty element. *)
Definition sample_tree : XMLWrapper.t :=
  XMLWrapper.set_attribute "xmlns" "http://example.org/a?b=1&c=2"
    (XMLWrapper.append_element
       (ET.Elem "List" [] PyNone [ET.text_element "ListItem" (PyStr "")])
       (XMLWrapper.append_element
          (ET.text_element "Text" (PyStr "<?xml version='1.0'?> & more"))
          (XMLWrapper.__init__ "Content"))).

(** The element a builder call appends: the one it appends to an empty
    [Content]. *)
Definition fragment (c : Content.call) : ET.Element :=
  last (XMLWrapper._elements (Content.after c Content.__init__))
       (ET.Elem "" [] PyNone []).

(** The two kinds of answer, with the arguments of their constructors. *)
Inductive answer_spec : Type :=
| FreeText (default_text : option string) (lines_in_box : option Z)
           (reg_exp error_text : option string)
           (min_length max_length : option Z) (is_numeric : bool)
           (min_val max_val : option Z)
| Selection (selections : dict string) (answer_style : option string)
            (min_selections max_selections : option Z).

Definition build_answer (a : answer_spec) : XMLWrapper.t :=
  match a with
  | FreeText default_text lines_in_box reg_exp error_text min_length max_length
      is_numeric min_val max_val =>
      FreeTextAnswer.__init__ default_text lines_in_box reg_exp error_text
        min_length max_length is_numeric min_val max_val
  | Selection selections answer_style min_selections max_selections =>
      SelectionAnswer.__init__ selections answer_style min_selections max_selections
  end.

(** The answer is a [SelectionAnswer] given a non-zero selection count. *)
Definition has_selection_count (a : answer_spec) : bool :=
  match a with
  | FreeText _ _ _ _ _ _ _ _ _ => false
  | Selection _ _ min_selections max_selections =>
      truthy_opt_int min_selections || truthy_opt_int max_selections
  end.

(** No node of the elements of [w] holds a non-zero [int] as text. *)
Definition str_texts (w : XMLWrapper.t) : bool :=
  forallb (ET.forall_nodes serializable_text) (XMLWrapper._elements w).

(** What is needed to construct one question of a document: the chain of
    calls building its content, its answer, and the remaining arguments. *)
Record question_spec : Type := mk_question_spec {
  content_calls : list Content.call;
  answer_of : answer_spec;
  name_of : option string;
  required_of : bool;
  id_of : option string
}.

Definition question_args (s : question_spec) : Question.args :=
  Question.mk_args (Content.after_all (content_calls s) Content.__init__)
    (build_answer (answer_of s)) (name_of s) (required_of s) (id_of s).

(** The form holding, in order, the questions constructed from the
    specifications, the counter starting at [_ID]. *)
Definition build_form (l : list question_spec) (_ID : Z) : QuestionForm.t :=
  QuestionForm.after_all
    (map QuestionForm.Add_question
       (fst (Question.construct_all (map question_args l) _ID)))
    QuestionForm.__init__.

(** The character is one of those [_encode_for_url] has an entry for. *)
Definition in_encoder (c : ascii) : bool :=
  existsb (fun cc => Ascii.eqb c (fst cc)) XMLWrapper.encoder.

Definition not_in_encoder (c : ascii) : bool := negb (in_encoder c).

(** Every element tagged [Constraints] has one or two children. *)
Definition constraints_filled (l : list ET.Element) : bool :=
  forallb
    (fun e =>
       negb (String.eqb (ET.tag e) "Constraints")
       || (Nat.leb 1 (List.length (ET.children e))
           && Nat.leb (List.length (ET.children e)) 2))
    l.

(** The tag of the element a call on a form appends. *)
Definition form_call_tag (c : QuestionForm.call) : string :=
  match c with
  | QuestionForm.Add_overview _ => "Overview"
  | QuestionForm.Add_question _ => "Question"
  end.

(** The score of the first [add_max_score] among the calls, if any. *)
Fixpoint first_score (cs : list AnswerKey.call) : option Z :=
  match cs with
  | [] => None
  | AnswerKey.Add_max_score score :: _ => Some score
  | AnswerKey.Add_question_keys _ _ :: cs' => first_score cs'
  end.

(** The questions the calls give keys for, in call order. *)
Fixpoint keyed_questions (cs : list AnswerKey.call) : list Question.t :=
  match cs with
  | [] => []
  | AnswerKey.Add_max_score _ :: cs' => keyed_questions cs'
  | AnswerKey.Add_question_keys question _ :: cs' => question :: keyed_questions cs'
  end.

(** The elements tagged [QualificationValueMapping]. *)
Definition value_mappings (l : list ET.Element) : list ET.Element :=
  filter (fun e => String.eqb (ET.tag e) "QualificationValueMapping") l.

(** Reading an answer key back from its elements: a score from its decimal
    text, an option from the children of an [AnswerOption] (the identifiers,
    then the score last). *)
Definition read_score (o : obj) : option Z :=
  match o with
  | PyStr s => option_map Z.of_int (NilZero.int_of_string s)
  | _ => None
  end.

Definition read_identifier (e : ET.Element) : option string :=
  match ET.text e with
  | PyStr s => if String.eqb (ET.tag e) "SelectionIdentifier" then Some s else None
  | _ => None
  end.

Fixpoint all_some {A : Type} (l : list (option A)) : option (list A) :=
  match l with
  | [] => Some []
  | None :: _ => None
  | Some a :: l' => option_map (cons a) (all_some l')
  end.

Definition read_option (e : ET.Element) : option (Z * list string) :=
  match rev (ET.children e) with
  | [] => None
  | score :: ids_reversed =>
      match read_score (ET.text score),
            all_some (map read_identifier (rev ids_reversed)) with
      | Some s, Some ids =>
          if String.eqb (ET.tag score) "AnswerScore" then Some (s, ids) else None
      | _, _ => None
      end
  end.

Definition read_keys (l : list ET.Element) : option (list (Z * list string)) :=
  all_some (map read_option l).

(** The element [add_max_score] appends for a score. *)
Definition value_mapping (score : Z) : ET.Element :=
  ET.Elem "QualificationValueMapping" [] PyNone
    [ET.Elem "PercentageMapping" [] PyNone
       [ET.text_element "MaximumSummedScore" (PyStr (str score))]].

(** The keys [_update_fields] reads, in the order it reads them. *)
Definition credential_keys : list string :=
  ["User name"; "Password"; "Access key ID"; "Secret access key";
   "Console login link"].

(** The first of them the record lacks. *)
Definition first_missing (credentials : dict string) : option string :=
  find (fun k => negb (dict_mem k credentials)) credential_keys.

(** All of the first [n] of them are in the record. *)
Definition has_first (n : nat) (credentials : dict string) : bool :=
  forallb (fun k => dict_mem k credentials) (firstn n credential_keys).

(** What a field holds after it was assigned [credentials[k]]. *)
Definition stored (k : string) (credentials : dict string)
  : AmazonIAMUser.field_value :=
  match dict_get k credentials with
  | Ok v => AmazonIAMUser.Value v
  | Raise _ => AmazonIAMUser.Field_default
  end.

(** The outcome of reading the file at [path] with a loader. *)
Definition loaded (file_contents : string -> Result string)
    (loader : string -> Result (dict string)) (path : string)
  : Result (dict string) :=
  file <- file_contents path ;; loader file.

(** Reading a selection back from a [Selection] element: its identifier,
    then its text. *)
Definition read_selection (e : ET.Element) : option (string * string) :=
  match ET.children e with
  | [i; t] =>
      match ET.text i, ET.text t with
      | PyStr identifier, PyStr label =>
          if String.eqb (ET.tag i) "SelectionIdentifier" && String.eqb (ET.tag t) "Text"
          then Some (identifier, label)
          else None
      | _, _ => None
      end
  | _ => None
  end.

(** 1 for true, 0 for false. *)
Definition count_if (b : bool) : nat := if b then 1%nat else 0%nat.

(** The call returned, or raised [TypeError]. *)
Definition ok_or_type_error {A : Type} (r : Result A) : bool :=
  match r with
  | Ok _ => true
  | Raise (TypeError _) => true
  | Raise _ => false
  end.

(* ================================================================== *)
(** ** Facts about the string functions                                 *)
(* ================================================================== *)

(** Case analysis over the 256 characters. *)
Ltac each_character c :=
  let b0 := fresh "b" in let b1 := fresh "b" in let b2 := fresh "b" in
  let b3 := fresh "b" in let b4 := fresh "b" in let b5 := fresh "b" in
  let b6 := fresh "b" in let b7 := fresh "b" in
  destruct c as [b0 b1 b2 b3 b4 b5 b6 b7];
  destruct b0, b1, b2, b3, b4, b5, b6, b7.

Lemma append_nil_r (s : string) : s ++ "" = s.
Proof. induction s as [|c s IH]; simpl; [reflexivity | now rewrite IH]. Qed.

Lemma append_assoc (a b c : string) : (a ++ b) ++ c = a ++ (b ++ c).
Proof. induction a as [|x a IH]; simpl; [reflexivity | now rewrite IH]. Qed.

Lemma all_chars_app (p : ascii -> bool) (a b : string) :
  all_chars p (a ++ b) = all_chars p a && all_chars p b.
Proof.
  induction a as [|c a IH]; simpl; [reflexivity|].
  rewrite IH. now rewrite andb_assoc.
Qed.

Lemma replace_app (old : ascii) (new a b : string) :
  replace old new (a ++ b) = replace old new a ++ replace old new b.
Proof.
  induction a as [|c a IH]; simpl; [reflexivity|].
  destruct (Ascii.eqb c old); rewrite IH; simpl.
  - now rewrite append_assoc.
  - reflexivity.
Qed.

(** After replacing [old] by a text free of [old], no [old] is left. *)
Lemma replace_removes (old : ascii) (new s : string) :
  all_chars (fun c => negb (Ascii.eqb c old)) new = true ->
  all_chars (fun c => negb (Ascii.eqb c old)) (replace old new s) = true.
Proof.
  intros Hnew. induction s as [|c s IH]; simpl; [reflexivity|].
  destruct (Ascii.eqb c old) eqn:E.
  - rewrite all_chars_app, Hnew, IH. reflexivity.
  - simpl. rewrite E, IH. reflexivity.
Qed.

(** A replacement by a text within [p] keeps a text within [p]. *)
Lemma replace_preserves (p : ascii -> bool) (old : ascii) (new s : string) :
  all_chars p new = true ->
  all_chars p s = true ->
  all_chars p (replace old new s) = true.
Proof.
  intros Hnew. induction s as [|c s IH]; simpl; [reflexivity|].
  intros H. apply andb_true_iff in H as [Hc Hs].
  destruct (Ascii.eqb c old).
  - rewrite all_chars_app, Hnew, (IH Hs). reflexivity.
  - simpl. rewrite Hc, (IH Hs). reflexivity.
Qed.

(** A text without the separator is its own single segment. *)
Lemma split_without_separator (s : string) :
  all_chars not_dot s = true -> split "." s = [s].
Proof.
  induction s as [|c s IH]; [reflexivity|].
  cbn [all_chars split]. intros H. apply andb_true_iff in H as [Hc Hs].
  unfold not_dot in Hc. apply negb_true_iff in Hc.
  now rewrite Hc, (IH Hs).
Qed.

Lemma to_int_not_nil (z : Z) :
  Z.to_int z <> Decimal.Pos Decimal.Nil /\ Z.to_int z <> Decimal.Neg Decimal.Nil.
Proof.
  destruct z as [|p|p]; simpl; split; try discriminate;
    intros H; injection H as H; exact (DecimalPos.Unsigned.to_uint_nonnil p H).
Qed.

(** [str] gives different integers different texts. *)
Lemma str_inj (a b : Z) : str a = str b -> a = b.
Proof.
  unfold str. intros H.
  apply DecimalZ.to_int_inj.
  destruct (to_int_not_nil a) as [Ha1 Ha2], (to_int_not_nil b) as [Hb1 Hb2].
  assert (E : NilZero.int_of_string (NilZero.string_of_int (Z.to_int a))
              = NilZero.int_of_string (NilZero.string_of_int (Z.to_int b)))
    by now rewrite H.
  rewrite !NilZero.isi in E by assumption.
  now injection E.
Qed.

Lemma QuestionID_inj (a b : Z) : QuestionID_ a = QuestionID_ b -> a = b.
Proof.
  unfold QuestionID_. intros H. cbn [append] in H.
  apply str_inj. now inversion H.
Qed.

(* ================================================================== *)
(** ** Facts about the serializer and the substitution                  *)
(* ================================================================== *)

Lemma escape_cdata_str_app (a b : string) :
  ET.escape_cdata_str (a ++ b) = ET.escape_cdata_str a ++ ET.escape_cdata_str b.
Proof. unfold ET.escape_cdata_str. now rewrite !replace_app. Qed.

(** Escaped text holds no ['<']. *)
Lemma escape_cdata_str_not_lt (s : string) :
  all_chars not_lt (ET.escape_cdata_str s) = true.
Proof.
  unfold ET.escape_cdata_str.
  apply replace_preserves; [reflexivity|].
  apply (replace_removes "<" "&lt;"). reflexivity.
Qed.

Lemma ascii_encode_app (a b : string) :
  ET.ascii_encode (a ++ b) = ET.ascii_encode a ++ ET.ascii_encode b.
Proof.
  induction a as [|c a IH]; simpl; [reflexivity|].
  now rewrite IH, append_assoc.
Qed.

Lemma charref_not_lt (c : ascii) :
  not_lt c = true -> all_chars not_lt (ET.charref c) = true.
Proof.
  each_character c; intros H;
    solve [ vm_compute; reflexivity | vm_compute in H; discriminate H ].
Qed.

Lemma ascii_encode_not_lt (s : string) :
  all_chars not_lt s = true -> all_chars not_lt (ET.ascii_encode s) = true.
Proof.
  induction s as [|c s IH]; simpl; [reflexivity|].
  intros H. apply andb_true_iff in H as [Hc Hs].
  rewrite all_chars_app, (charref_not_lt c Hc), (IH Hs). reflexivity.
Qed.

(** The substitution leaves untouched a stretch of text without ['<']. *)
Lemma sub_from_not_lt (s t : string) :
  all_chars not_lt s = true ->
  re.sub_from 0 (s ++ t) = s ++ re.sub_from 0 t.
Proof.
  induction s as [|c s IH]; [reflexivity|].
  intros H. simpl in H. apply andb_true_iff in H as [Hc Hs].
  change (String c s ++ t) with (String c (s ++ t)).
  unfold not_lt in Hc. apply negb_true_iff in Hc.
  cbn [re.sub_from prefix].
  destruct (ascii_dec "<" c) as [<-|_].
  - rewrite Ascii.eqb_refl in Hc. discriminate.
  - now rewrite (IH Hs).
Qed.

(** It removes the declaration [ET.tostring] wrote and keeps the line feed
    after it. *)
Lemma sub_from_declaration (x : string) :
  re.sub_from 0 (ET.xml_declaration ++ x) = String newline_char (re.sub_from 0 x).
Proof. reflexivity. Qed.

(* ================================================================== *)
(** ** Content.add_formatted_text                                       *)
(* ================================================================== *)

Lemma serialize_formatted_text (m : string) :
  ET._serialize_xml
    (XMLWrapper.compile_elements (Content.add_formatted_text m Content.__init__) None)
  = Ok ("<Content><FormattedContent>"
        ++ ET.escape_cdata_str ("<![CDATA[" ++ m ++ "]]>")
        ++ "</FormattedContent></Content>").
Proof.
  cbn -[ET.escape_cdata_str].
  rewrite ?append_assoc, ?append_nil_r. reflexivity.
Qed.

(** Without pretty-printing, for every markup [m]: the text of the
    [FormattedContent] element is written character-escaped. *)
Lemma to_string_formatted_text_unformatted (m : string) (indent : Z) :
  XMLWrapper.to_string (Content.add_formatted_text m Content.__init__)
    None false false indent
  = Ok ("<Content><FormattedContent>&lt;![CDATA["
        ++ ET.ascii_encode (ET.escape_cdata_str m)
        ++ "]]&gt;</FormattedContent></Content>").
Proof.
  unfold XMLWrapper.to_string, ET.tostring.
  rewrite serialize_formatted_text. cbn [bind].
  rewrite !escape_cdata_str_app, !ascii_encode_app.
  unfold re.sub_xml_declaration.
  change (ET.ascii_encode ET.xml_declaration) with ET.xml_declaration.
  rewrite sub_from_declaration. cbn [drop_first].
  change (ET.ascii_encode "<Content><FormattedContent>")
    with "<Content><FormattedContent>".
  change (ET.escape_cdata_str "<![CDATA[") with "&lt;![CDATA[".
  change (ET.escape_cdata_str "]]>") with "]]&gt;".
  change (ET.ascii_encode "&lt;![CDATA[") with "&lt;![CDATA[".
  change (ET.ascii_encode "]]&gt;") with "]]&gt;".
  change (ET.ascii_encode "</FormattedContent></Content>")
    with "</FormattedContent></Content>".
  f_equal.
  set (e := ET.ascii_encode (ET.escape_cdata_str m)).
  assert (He : all_chars not_lt e = true)
    by (apply ascii_encode_not_lt, escape_cdata_str_not_lt).
  rewrite !append_assoc.
  change (re.sub_from 0 ("<Content><FormattedContent>" ++ "&lt;![CDATA[" ++ ?x))
    with ("<Content><FormattedContent>&lt;![CDATA[" ++ re.sub_from 0 x).
  now rewrite (sub_from_not_lt e _ He).
Qed.

(** C1 (the code departs from the claim).  [add_formatted_text m] stores the
    text [<![CDATA[m]]>] in the element, and the serializer escapes element
    text: for every [m] the rendering without pretty-printing holds
    [&lt;![CDATA[ ... ]]&gt;] around the character-escaped [m], not the
    literal wrapper around [m]; at [m = <b>x</b>] the default rendering
    (pretty-printed, indent 4) is escaped in the same way. *)
Theorem add_formatted_text_rendered_escaped :
  (forall (m : string) (indent : Z),
      XMLWrapper.to_string (Content.add_formatted_text m Content.__init__)
        None false false indent
      = Ok ("<Content><FormattedContent>&lt;![CDATA["
            ++ ET.ascii_encode (ET.escape_cdata_str m)
            ++ "]]&gt;</FormattedContent></Content>"))
  /\ ET.ascii_encode (ET.escape_cdata_str "<b>x</b>") = "&lt;b&gt;x&lt;/b&gt;"
  /\ XMLWrapper.to_string (Content.add_formatted_text "<b>x</b>" Content.__init__)
       None false false 4
     = Ok "<Content><FormattedContent>&lt;![CDATA[&lt;b&gt;x&lt;/b&gt;]]&gt;</FormattedContent></Content>"
  /\ XMLWrapper.to_string_default
       (Content.add_formatted_text "<b>x</b>" Content.__init__)
     = Ok ("<Content>" ++ newline
           ++ "    <FormattedContent>&lt;![CDATA[&lt;b&gt;x&lt;/b&gt;]]&gt;</FormattedContent>"
           ++ newline ++ "</Content>" ++ newline).
Proof.
  split; [exact to_string_formatted_text_unformatted|].
  repeat split; vm_compute; reflexivity.
Qed.

(* ================================================================== *)
(** ** FreeTextAnswer: constraints                                      *)
(* ================================================================== *)

Lemma is_numeric_attrs (min_val max_val : option Z) :
  exists attrs,
    FreeTextAnswer._create_is_numeric min_val max_val
    = ET.Elem "IsNumeric" attrs PyNone []
    /\ numeric_attr_keys attrs = true.
Proof.
  unfold FreeTextAnswer._create_is_numeric.
  destruct min_val as [a|], max_val as [b|];
    try destruct (truthy_int a); try destruct (truthy_int b);
    eexists; split; reflexivity.
Qed.

(** C2.  A [FreeTextAnswer] constructed with [is_numeric=True], whatever the
    other arguments: its tree has no [Length] node and no [AnswerFormatRegex]
    node; its first element is [Constraints] holding exactly one child,
    [IsNumeric], whose attributes are among [minValue] and [maxValue]; no
    other element is or contains a [Constraints] node. *)
Theorem numeric_free_text_only_is_numeric :
  forall (default_text : option string) (lines_in_box : option Z)
         (reg_exp error_text : option string) (min_length max_length : option Z)
         (min_val max_val : option Z),
    let answer :=
      FreeTextAnswer.__init__ default_text lines_in_box reg_exp error_text
        min_length max_length true min_val max_val in
    let tree := XMLWrapper.compile_elements answer None in
    ET.has_tag "Length" tree = false
    /\ ET.has_tag "AnswerFormatRegex" tree = false
    /\ exists attrs rest,
         XMLWrapper._elements answer
         = ET.Elem "Constraints" [] PyNone [ET.Elem "IsNumeric" attrs PyNone []]
           :: rest
         /\ numeric_attr_keys attrs = true
         /\ forallb (fun e => negb (ET.has_tag "Constraints" e)) rest = true.
Proof.
  intros. subst tree answer.
  destruct (is_numeric_attrs min_val max_val) as [attrs [Hn Hk]].
  unfold FreeTextAnswer.__init__, FreeTextAnswer._add_constraints.
  rewrite Hn.
  replace (any [truthy_opt_str reg_exp; truthy_opt_int min_length;
                truthy_opt_int max_length; true]) with true
    by (unfold any; simpl; now rewrite !orb_true_r).
  cbn [negb]. rewrite !andb_false_r.
  assert (Hr : match reg_exp with
               | Some r =>
                   if truthy_str r && false
                   then ([] ++ [FreeTextAnswer._create_reg_exp r error_text])%list
                   else []
               | None => []
               end = @nil ET.Element).
  { destruct reg_exp; [rewrite andb_false_r|]; reflexivity. }
  rewrite Hr.
  destruct default_text as [[|c d]|], lines_in_box as [n|];
    try destruct (truthy_int n);
    (split; [reflexivity | split; [reflexivity|]]);
    eexists; eexists; (split; [reflexivity | split; [exact Hk | reflexivity]]).
Qed.

(** C10.  A length bound of 0 is treated as an absent one: the constructed
    object is the one constructed with that bound absent, and no [Length]
    node carries the corresponding [minLength] / [maxLength] attribute; with
    no [reg_exp], [is_numeric] False and both bounds 0 or absent, the tree has
    no [Constraints] node. *)
Theorem zero_length_bound_is_absent :
  forall (default_text : option string) (lines_in_box : option Z)
         (reg_exp error_text : option string) (min_length max_length : option Z)
         (is_numeric : bool) (min_val max_val : option Z),
    FreeTextAnswer.__init__ default_text lines_in_box reg_exp error_text
      (Some 0) max_length is_numeric min_val max_val
    = FreeTextAnswer.__init__ default_text lines_in_box reg_exp error_text
        None max_length is_numeric min_val max_val
    /\ FreeTextAnswer.__init__ default_text lines_in_box reg_exp error_text
         min_length (Some 0) is_numeric min_val max_val
       = FreeTextAnswer.__init__ default_text lines_in_box reg_exp error_text
           min_length None is_numeric min_val max_val
    /\ no_attribute_on "Length" "minLength"
         (XMLWrapper.compile_elements
            (FreeTextAnswer.__init__ default_text lines_in_box reg_exp error_text
               (Some 0) max_length is_numeric min_val max_val) None) = true
    /\ no_attribute_on "Length" "maxLength"
         (XMLWrapper.compile_elements
            (FreeTextAnswer.__init__ default_text lines_in_box reg_exp error_text
               min_length (Some 0) is_numeric min_val max_val) None) = true
    /\ (forall min_given max_given : bool,
          ET.has_tag "Constraints"
            (XMLWrapper.compile_elements
               (FreeTextAnswer.__init__ default_text lines_in_box None error_text
                  (zero_or_absent min_given) (zero_or_absent max_given) false
                  min_val max_val) None) = false).
Proof.
  intros.
  split; [reflexivity|]. split; [reflexivity|].
  split; [|split].
  - unfold FreeTextAnswer.__init__, FreeTextAnswer._add_constraints,
      FreeTextAnswer._add_length_constraints.
    destruct default_text as [[|c d]|], lines_in_box as [[|n|n]|],
        reg_exp as [[|c' r]|], max_length as [[|m|m]|], is_numeric; reflexivity.
  - unfold FreeTextAnswer.__init__, FreeTextAnswer._add_constraints,
      FreeTextAnswer._add_length_constraints.
    destruct default_text as [[|c d]|], lines_in_box as [[|n|n]|],
        reg_exp as [[|c' r]|], min_length as [[|m|m]|], is_numeric; reflexivity.
  - intros [|] [|];
      destruct default_text as [[|c d]|], lines_in_box as [[|n|n]|]; reflexivity.
Qed.

(* ================================================================== *)
(** ** AnswerKey.add_max_score                                          *)
(* ================================================================== *)

Lemma after_keeps_score_added (c : AnswerKey.call) (ak : AnswerKey.t) :
  AnswerKey._is_score_added ak = true ->
  AnswerKey._is_score_added (AnswerKey.after c ak) = true.
Proof.
  intros H. destruct c as [score | question keys]; simpl.
  - unfold AnswerKey.add_max_score. rewrite H. simpl. exact H.
  - exact H.
Qed.

Lemma after_all_keeps_score_added (cs : list AnswerKey.call) :
  forall ak : AnswerKey.t,
    AnswerKey._is_score_added ak = true ->
    AnswerKey._is_score_added (AnswerKey.after_all cs ak) = true.
Proof.
  unfold AnswerKey.after_all.
  induction cs as [|c cs IH]; intros ak H; simpl.
  - exact H.
  - apply IH, after_keeps_score_added, H.
Qed.

Lemma add_max_score_sets_flag (score : Z) (ak : AnswerKey.t) :
  snd (AnswerKey.add_max_score score ak) = Ok tt ->
  AnswerKey._is_score_added (fst (AnswerKey.add_max_score score ak)) = true.
Proof.
  unfold AnswerKey.add_max_score.
  destruct (AnswerKey._is_score_added ak); simpl.
  - discriminate.
  - reflexivity.
Qed.

(** C3.  Once [add_max_score] has succeeded on an AnswerKey, then after any
    further calls of its methods a call of [add_max_score] raises the
    assertion error and leaves the object as it was: same fields, same
    element list, same rendering under every option. *)
Theorem add_max_score_twice_fails :
  forall (ak : AnswerKey.t) (score : Z) (later : list AnswerKey.call) (again : Z),
    snd (AnswerKey.add_max_score score ak) = Ok tt ->
    let before :=
      AnswerKey.after_all later (fst (AnswerKey.add_max_score score ak)) in
    AnswerKey.add_max_score again before
    = (before, Raise (AssertionError "Score was already added to the answers"))
    /\ XMLWrapper._elements
         (AnswerKey.base (fst (AnswerKey.add_max_score again before)))
       = XMLWrapper._elements (AnswerKey.base before)
    /\ forall root_name url_safe formatted indent,
         AnswerKey.to_string (fst (AnswerKey.add_max_score again before))
           root_name url_safe formatted indent
         = AnswerKey.to_string before root_name url_safe formatted indent.
Proof.
  intros ak score later again Hok before.
  assert (Hflag : AnswerKey._is_score_added before = true).
  { apply after_all_keeps_score_added, add_max_score_sets_flag, Hok. }
  assert (Hcall : AnswerKey.add_max_score again before
                  = (before,
                     Raise (AssertionError "Score was already added to the answers"))).
  { unfold AnswerKey.add_max_score. rewrite Hflag. reflexivity. }
  split; [exact Hcall|].
  rewrite Hcall. split; [reflexivity | intros; reflexivity].
Qed.

Lemma add_max_score_twice_fails_witness :
  snd (AnswerKey.add_max_score 15 AnswerKey.__init__) = Ok tt
  /\ (let before :=
        AnswerKey.after_all
          [AnswerKey.Add_question_keys
             (fst (Question.__init__ some_content some_answer None false None 1))
             [(5, ["D"])]]
          (fst (AnswerKey.add_max_score 15 AnswerKey.__init__)) in
      AnswerKey.add_max_score 20 before
      = (before, Raise (AssertionError "Score was already added to the answers"))
      /\ XMLWrapper._elements
           (AnswerKey.base (fst (AnswerKey.add_max_score 20 before)))
         = XMLWrapper._elements (AnswerKey.base before)
      /\ forall root_name url_safe formatted indent,
           AnswerKey.to_string (fst (AnswerKey.add_max_score 20 before))
             root_name url_safe formatted indent
           = AnswerKey.to_string before root_name url_safe formatted indent).
Proof.
  split; [reflexivity|].
  apply (add_max_score_twice_fails AnswerKey.__init__ 15).
  reflexivity.
Defined.

(* ================================================================== *)
(** ** XMLWrapper._encode_for_url                                       *)
(* ================================================================== *)

Lemma encode_for_url_app (a b : string) :
  XMLWrapper._encode_for_url (a ++ b)
  = XMLWrapper._encode_for_url a ++ XMLWrapper._encode_for_url b.
Proof.
  unfold XMLWrapper._encode_for_url, XMLWrapper.encoder. cbn [fold_left fst snd].
  now rewrite !replace_app.
Qed.

Lemma encode_for_url_char (c : ascii) :
  XMLWrapper._encode_for_url (String c "") = Spec.percent_code c.
Proof. each_character c; vm_compute; reflexivity. Qed.

Lemma percent_code_cases (c : ascii) :
  Spec.percent_code c
  = if Spec.reserved c then Spec.percent_code c else String c "".
Proof. each_character c; vm_compute; reflexivity. Qed.

Lemma encode_for_url_spec (text : string) :
  XMLWrapper._encode_for_url text = Spec.url_safe text.
Proof.
  induction text as [|c rest IH]; [reflexivity|].
  change (String c rest) with (String c "" ++ rest).
  rewrite encode_for_url_app, encode_for_url_char, IH. reflexivity.
Qed.

Lemma to_string_url_safe_last (self : XMLWrapper.t) (root_name : option string)
    (formatted : bool) (indent : Z) :
  XMLWrapper.to_string self root_name true formatted indent
  = fmap XMLWrapper._encode_for_url
      (XMLWrapper.to_string self root_name false formatted indent).
Proof.
  unfold XMLWrapper.to_string, fmap.
  destruct (ET.tostring (XMLWrapper.compile_elements self root_name)) as [s|e];
    [|reflexivity].
  cbn [bind]. destruct formatted; [|reflexivity].
  destruct (minidom.parse_serialized (XMLWrapper.compile_elements self root_name));
    reflexivity.
Qed.

(** C4.  [_encode_for_url] is the character-by-character map of the
    specification: each of [$ & + , / : ; ? @] becomes [%24 %26 %2B %2C %2F
    %3A %3B %3F %40], every other character (['<'], ['>'], ['%'] among them)
    stays as it is; and URL-safe rendering is this map applied last, to the
    whole text of the rendering that is not URL-safe. *)
Theorem url_safe_encoding_nine_characters :
  (forall text : string, XMLWrapper._encode_for_url text = Spec.url_safe text)
  /\ (forall c : ascii,
        XMLWrapper._encode_for_url (String c "")
        = if Spec.reserved c then Spec.percent_code c else String c "")
  /\ (forall (self : XMLWrapper.t) (root_name : option string)
             (formatted : bool) (indent : Z),
        XMLWrapper.to_string self root_name true formatted indent
        = fmap XMLWrapper._encode_for_url
            (XMLWrapper.to_string self root_name false formatted indent))
  /\ XMLWrapper._encode_for_url "$&+,/:;?@" = "%24%26%2B%2C%2F%3A%3B%3F%40"
  /\ XMLWrapper._encode_for_url "<>%" = "<>%"
  /\ XMLWrapper._encode_for_url "<b>&amp;</b>?" = "<b>%26amp%3B<%2Fb>%3F".
Proof.
  split; [exact encode_for_url_spec|].
  split; [intros c; rewrite encode_for_url_char; apply percent_code_cases|].
  split; [exact to_string_url_safe_last|].
  repeat split; vm_compute; reflexivity.
Qed.

(* ================================================================== *)
(** ** Content.add_image                                                *)
(* ================================================================== *)

(** What [add_image] appends, for every [url] and [alt_text]: the three
    fields are always there; [SubType] hangs on the last segment of the URL
    cut at its dots. *)
Lemma add_image_elements (url alt_text : string) :
  XMLWrapper._elements (Content.add_image url alt_text Content.__init__)
  = [ET.Elem "Binary" [] PyNone
       [ET.Elem "MimeType" [] PyNone
          (ET.Elem "Type" [] (PyStr "image") []
           :: if truthy_str (last_segment (split "." url))
              then [ET.Elem "SubType" [] (PyStr (last_segment (split "." url))) []]
              else []);
        ET.Elem "DataURL" [] (PyStr url) [];
        ET.Elem "AltText" [] (PyStr alt_text) []]].
Proof. reflexivity. Qed.

(** A non-empty URL without any dot gets a [SubType] node holding the whole
    URL. *)
Lemma add_image_url_without_dot (url alt_text : string) :
  all_chars not_dot url = true ->
  truthy_str url = true ->
  XMLWrapper._elements (Content.add_image url alt_text Content.__init__)
  = [ET.Elem "Binary" [] PyNone
       [ET.Elem "MimeType" [] PyNone
          [ET.Elem "Type" [] (PyStr "image") [];
           ET.Elem "SubType" [] (PyStr url) []];
        ET.Elem "DataURL" [] (PyStr url) [];
        ET.Elem "AltText" [] (PyStr alt_text) []]].
Proof.
  intros Hdot Hne. rewrite add_image_elements.
  rewrite (split_without_separator url Hdot).
  cbn [last_segment last]. now rewrite Hne.
Qed.

(** C5 (the code departs from the claim).  For every [url] and [alt_text]
    the [Binary] structure holds [Type] (text [image]), [DataURL] (text
    [url]) and [AltText] (text [alt_text]), and for a URL with an extension
    ([.../board.gif]) [SubType] holds the extension, as claimed.  But a URL
    without a file extension still gets a [SubType] node: for
    [http://tictactoe.amazon.com/game/01523/board] its text is
    [com/game/01523/board], for [board] it is [board]. *)
Theorem add_image_subtype_without_extension :
  (forall url alt_text : string,
      XMLWrapper._elements (Content.add_image url alt_text Content.__init__)
      = [ET.Elem "Binary" [] PyNone
           [ET.Elem "MimeType" [] PyNone
              (ET.Elem "Type" [] (PyStr "image") []
               :: if truthy_str (last_segment (split "." url))
                  then [ET.Elem "SubType" []
                          (PyStr (last_segment (split "." url))) []]
                  else []);
            ET.Elem "DataURL" [] (PyStr url) [];
            ET.Elem "AltText" [] (PyStr alt_text) []]])
  /\ last_segment (split "." "http://tictactoe.amazon.com/game/01523/board.gif")
     = "gif"
  /\ XMLWrapper._elements
       (Content.add_image "http://tictactoe.amazon.com/game/01523/board"
          "The game board" Content.__init__)
     = [ET.Elem "Binary" [] PyNone
          [ET.Elem "MimeType" [] PyNone
             [ET.Elem "Type" [] (PyStr "image") [];
              ET.Elem "SubType" [] (PyStr "com/game/01523/board") []];
           ET.Elem "DataURL" []
             (PyStr "http://tictactoe.amazon.com/game/01523/board") [];
           ET.Elem "AltText" [] (PyStr "The game board") []]]
  /\ XMLWrapper._elements (Content.add_image "board" "The game board" Content.__init__)
     = [ET.Elem "Binary" [] PyNone
          [ET.Elem "MimeType" [] PyNone
             [ET.Elem "Type" [] (PyStr "image") [];
              ET.Elem "SubType" [] (PyStr "board") []];
           ET.Elem "DataURL" [] (PyStr "board") [];
           ET.Elem "AltText" [] (PyStr "The game board") []]]
  /\ XMLWrapper.to_string
       (Content.add_image "board" "The game board" Content.__init__)
       None false false 4
     = Ok "<Content><Binary><MimeType><Type>image</Type><SubType>board</SubType></MimeType><DataURL>board</DataURL><AltText>The game board</AltText></Binary></Content>".
Proof.
  split; [exact add_image_elements|].
  repeat split; vm_compute; reflexivity.
Qed.

(* ================================================================== *)
(** ** SelectionAnswer                                                  *)
(* ================================================================== *)

(** Whatever the selections, a non-zero [min_selections] makes every
    rendering under the default root name raise: the count is stored as an
    [int] and the serializer only takes [str]. *)
Lemma selection_answer_min_count_not_serializable
    (selections : dict string) (answer_style : option string)
    (n : Z) (max_selections : option Z)
    (url_safe formatted : bool) (indent : Z) :
  truthy_int n = true ->
  XMLWrapper.to_string
    (SelectionAnswer.__init__ selections answer_style (Some n) max_selections)
    None url_safe formatted indent
  = Raise (ET._raise_serialization_error n).
Proof.
  intros Hn.
  unfold XMLWrapper.to_string, ET.tostring, SelectionAnswer.__init__.
  rewrite Hn.
  destruct max_selections as [m|]; [destruct (truthy_int m)|];
    destruct answer_style as [[|c s]|];
    cbn -[ET._raise_serialization_error]; rewrite Hn; reflexivity.
Qed.

(** The [Selections] element is always there and always last. *)
Lemma selections_always_last
    (selections : dict string) (answer_style : option string)
    (min_selections max_selections : option Z) :
  exists front,
    XMLWrapper._elements
      (SelectionAnswer.__init__ selections answer_style min_selections max_selections)
    = (front
       ++ [ET.Elem "Selections" [] PyNone
             (map (fun kv =>
                     ET.Elem "Selection" [] PyNone
                       [ET.text_element "SelectionIdentifier" (PyStr (fst kv));
                        ET.text_element "Text" (PyStr (snd kv))])
                  selections)])%list
    /\ forallb (fun e => negb (String.eqb (ET.tag e) "Selections")) front = true.
Proof.
  unfold SelectionAnswer.__init__, SelectionAnswer._add_selections,
    XMLWrapper.append_element.
  cbn [XMLWrapper._elements].
  eexists. split; [reflexivity|].
  destruct min_selections as [a|], max_selections as [b|],
      answer_style as [[|c s]|];
    try destruct (truthy_int a); try destruct (truthy_int b); reflexivity.
Qed.

(** C7 (the code departs from the claim).  For selections
    [{"a": "Apple", "b": "Banana"}] with [min_selections=1] and
    [max_selections=1] the element list is as claimed
    ([MinSelectionCount], [MaxSelectionCount], then [Selections] with the two
    entries in insertion order, [a] before [b]), but the counts are stored as
    the [int] 1, and rendering does not succeed: under the default root
    name (the class name) it raises [TypeError], URL-safe or not,
    pretty-printed or not, whatever the indent. *)
Theorem selection_answer_with_counts_not_rendered :
  XMLWrapper._elements apple_banana
  = [ET.Elem "MinSelectionCount" [] (PyInt 1) [];
     ET.Elem "MaxSelectionCount" [] (PyInt 1) [];
     ET.Elem "Selections" [] PyNone
       [ET.Elem "Selection" [] PyNone
          [ET.Elem "SelectionIdentifier" [] (PyStr "a") [];
           ET.Elem "Text" [] (PyStr "Apple") []];
        ET.Elem "Selection" [] PyNone
          [ET.Elem "SelectionIdentifier" [] (PyStr "b") [];
           ET.Elem "Text" [] (PyStr "Banana") []]]]
  /\ (forall (url_safe formatted : bool) (indent : Z),
        XMLWrapper.to_string apple_banana None url_safe formatted indent
        = Raise (TypeError "cannot serialize 1 (type int)"))
  /\ XMLWrapper.to_string_default apple_banana
     = Raise (TypeError "cannot serialize 1 (type int)")
  /\ is_ok (XMLWrapper.to_string_default apple_banana) = false.
Proof.
  split; [reflexivity|].
  split; [|split; reflexivity].
  intros url_safe formatted indent. reflexivity.
Qed.

(* ================================================================== *)
(** ** Question: the identifier counter                                 *)
(* ================================================================== *)

Lemma construct_counter (a : Question.args) (n : Z) :
  snd (Question.construct a n) = n + 1.
Proof. reflexivity. Qed.

Lemma construct_id (a : Question.args) (n : Z) :
  Question.id (fst (Question.construct a n))
  = Question.choose_id (Question.question_id a) n.
Proof.
  unfold Question.construct, Question.__init__.
  destruct (Question.name a) as [[|c s]|]; reflexivity.
Qed.

Lemma choose_id_auto (a : Question.args) (n : Z) :
  Question.auto_assigned a = true ->
  Question.choose_id (Question.question_id a) n = QuestionID_ n.
Proof.
  unfold Question.auto_assigned, Question.choose_id.
  destruct (Question.question_id a) as [[|c s]|]; simpl;
    solve [reflexivity | discriminate].
Qed.

Lemma construct_all_cons (a : Question.args) (l : list Question.args) (n : Z) :
  Question.construct_all (a :: l) n
  = (fst (Question.construct a n) :: fst (Question.construct_all l (n + 1)),
     snd (Question.construct_all l (n + 1))).
Proof.
  cbn [Question.construct_all].
  rewrite (surjective_pairing (Question.construct a n)), construct_counter.
  now rewrite (surjective_pairing (Question.construct_all l (n + 1))).
Qed.

Lemma construct_all_counter (l : list Question.args) :
  forall n, snd (Question.construct_all l n) = n + Z.of_nat (List.length l).
Proof.
  induction l as [|a l IH]; intros n.
  - simpl. lia.
  - rewrite construct_all_cons. cbn [snd List.length]. rewrite IH. lia.
Qed.

(** The identifiers taken from the counter are the counter values read,
    formatted. *)
Lemma auto_ids_numbers (l : list Question.args) :
  forall n, Question.auto_ids l n = map QuestionID_ (Question.auto_numbers l n).
Proof.
  induction l as [|a l IH]; intros n; [reflexivity|].
  unfold Question.auto_ids. rewrite construct_all_cons.
  cbn [fst combine filter Question.auto_numbers].
  rewrite construct_counter.
  destruct (Question.auto_assigned a) eqn:Ha.
  - cbn [map snd app]. rewrite construct_id, (choose_id_auto a n Ha).
    f_equal. apply IH.
  - cbn [app]. apply IH.
Qed.

Lemma auto_numbers_bounds (l : list Question.args) :
  forall n, Forall (fun k => n <= k) (Question.auto_numbers l n).
Proof.
  induction l as [|a l IH]; intros n; cbn [Question.auto_numbers].
  - constructor.
  - rewrite construct_counter.
    assert (Hrest : Forall (fun k => n <= k) (Question.auto_numbers l (n + 1))).
    { eapply Forall_impl; [|apply IH]. intros k Hk. simpl in Hk. lia. }
    destruct (Question.auto_assigned a); cbn [app];
      [constructor; [lia|]|]; exact Hrest.
Qed.

Lemma auto_numbers_increasing (l : list Question.args) :
  forall n, StronglySorted Z.lt (Question.auto_numbers l n).
Proof.
  induction l as [|a l IH]; intros n; cbn [Question.auto_numbers].
  - constructor.
  - rewrite construct_counter.
    destruct (Question.auto_assigned a); cbn [app]; [|apply IH].
    constructor; [apply IH|].
    eapply Forall_impl; [|apply auto_numbers_bounds].
    intros k Hk. simpl in Hk. lia.
Qed.

Lemma increasing_ids_nodup (ns : list Z) :
  StronglySorted Z.lt ns -> NoDup (map QuestionID_ ns).
Proof.
  induction 1 as [|n ns Hs IH Hall]; cbn [map]; constructor; [|exact IH].
  intros Hin. apply in_map_iff in Hin as [k [Hk Hin]].
  apply QuestionID_inj in Hk. subst k.
  rewrite Forall_forall in Hall. specialize (Hall n Hin). lia.
Qed.

Lemma auto_ids_nodup (l : list Question.args) (n : Z) :
  NoDup (Question.auto_ids l n).
Proof.
  rewrite auto_ids_numbers. apply increasing_ids_nodup, auto_numbers_increasing.
Qed.

(** C6.  For every sequence of constructions in one process (the counter
    starting at its initial value 1): the identifiers of the questions
    constructed without an identifier are, in construction order,
    [QuestionID_n] for a strictly increasing list of integers [n >= 1]; no
    two of them are equal; a first construction without identifier gets
    [QuestionID_1]; and two questions constructed one after the other and
    added to two separate forms carry [QuestionID_1] and [QuestionID_2]. *)
Theorem auto_assigned_ids_increase :
  forall l : list Question.args,
    (exists ns : list Z,
        Question.auto_ids l Question._ID_initial = map QuestionID_ ns
        /\ StronglySorted Z.lt ns
        /\ Forall (fun n => 1 <= n) ns)
    /\ NoDup (Question.auto_ids l Question._ID_initial)
    /\ (forall content answer name is_required,
          hd_error
            (Question.auto_ids
               (Question.mk_args content answer name is_required None :: l)
               Question._ID_initial)
          = Some "QuestionID_1")
    /\ (forall content answer name is_required content' answer' name' is_required',
          let '(q1, _ID) :=
            Question.__init__ content answer name is_required None
              Question._ID_initial in
          let '(q2, _ID) :=
            Question.__init__ content' answer' name' is_required' None _ID in
          form_question_ids (QuestionForm.add_question q1 QuestionForm.__init__)
          = [PyStr "QuestionID_1"]
          /\ form_question_ids (QuestionForm.add_question q2 QuestionForm.__init__)
             = [PyStr "QuestionID_2"]).
Proof.
  intros l. split; [|split; [|split]].
  - exists (Question.auto_numbers l Question._ID_initial).
    split; [apply auto_ids_numbers|].
    split; [apply auto_numbers_increasing | apply auto_numbers_bounds].
  - apply auto_ids_nodup.
  - intros. rewrite auto_ids_numbers. reflexivity.
  - intros. destruct name as [[|c s]|], name' as [[|c' s']|];
      split; reflexivity.
Qed.

(** C9.  Every construction of a [Question] leaves the counter one higher
    than it found it, with or without a caller-supplied identifier, so [k]
    constructions advance it by [k]; after a construction with a supplied
    identifier the next identifier taken from the counter skips a value
    ([QuestionID_1], [nextmove], [QuestionID_3]); and from any counter
    value on, the identifiers taken from the counter are pairwise
    different. *)
Theorem every_construction_advances_counter :
  (forall content answer name is_required question_id _ID,
      snd (Question.__init__ content answer name is_required question_id _ID)
      = _ID + 1)
  /\ (forall l _ID,
        snd (Question.construct_all l _ID) = _ID + Z.of_nat (List.length l))
  /\ map Question.id
       (fst (Question.construct_all
               [Question.mk_args some_content some_answer None false None;
                Question.mk_args some_content some_answer None false (Some "nextmove");
                Question.mk_args some_content some_answer None false None]
               Question._ID_initial))
     = ["QuestionID_1"; "nextmove"; "QuestionID_3"]
  /\ (forall l _ID, NoDup (Question.auto_ids l _ID)).
Proof.
  split; [reflexivity|].
  split; [intros; apply construct_all_counter|].
  split; [reflexivity|].
  intros. apply auto_ids_nodup.
Qed.

(* ================================================================== *)
(** ** AmazonIAMUser.from_file                                          *)
(* ================================================================== *)

Section FromFile.

Variable file_contents : string -> Result string.
Variable csv_first_row : string -> Result (dict string).
Variable json_load : string -> Result (dict string).

(** The dispatch is on the last dot-separated segment alone: a path without
    any dot whose whole text is [csv] is opened and read as CSV. *)
Lemma from_file_path_csv (self : AmazonIAMUser.t) (log : AmazonIAMUser.opened) :
  snd (fst (AmazonIAMUser.from_file file_contents csv_first_row json_load
              "csv" self log))
  = (log ++ ["csv"])%list.
Proof.
  unfold AmazonIAMUser.from_file. cbn [AmazonIAMUser.extension].
  change (String.eqb (AmazonIAMUser.extension "csv") "csv") with true.
  cbn [AmazonIAMUser._load_csv].
  destruct (file <- file_contents "csv" ;; csv_first_row file) as [cred|e];
    [|reflexivity].
  now destruct (AmazonIAMUser._update_fields cred self).
Qed.

End FromFile.

(** For every path whose last dot-separated segment - the value
    [from_file] dispatches on - is neither [csv] nor [json], [from_file]
    raises the unknown-extension error; no file has been opened, no loader
    has run, and every credential field is as before. *)
Lemma from_file_unknown_extension :
  forall (file_contents : string -> Result string)
         (csv_first_row json_load : string -> Result (dict string))
         (file_path : string) (self : AmazonIAMUser.t) (log : AmazonIAMUser.opened),
    AmazonIAMUser.extension file_path <> "csv" ->
    AmazonIAMUser.extension file_path <> "json" ->
    AmazonIAMUser.from_file file_contents csv_first_row json_load file_path self log
    = (self, log, Raise (Exception "Unknown file extension")).
Proof.
  intros file_contents csv_first_row json_load file_path self log Hcsv Hjson.
  unfold AmazonIAMUser.from_file.
  apply String.eqb_neq in Hcsv, Hjson.
  now rewrite Hcsv, Hjson.
Qed.

Lemma from_file_unknown_extension_witness :
  AmazonIAMUser.extension "credentials.txt" = "txt"
  /\ AmazonIAMUser.from_file no_file no_record no_record "credentials.txt"
       AmazonIAMUser.__init__ []
     = (AmazonIAMUser.__init__, [], Raise (Exception "Unknown file extension")).
Proof.
  split; [reflexivity|].
  apply from_file_unknown_extension; vm_compute; discriminate.
Defined.

(** C8 (the code departs from the claim).  The paths [csv] and [json] have
    no extension, so the claim has [from_file] raise the unknown-extension
    error for them without opening anything.  The code does not: a path
    without a dot is its own last segment, so [from_file] opens the file
    named [csv] and reads it with the CSV loader (the file named [json] with
    the JSON loader), passes on what the loader raises, and with a complete
    record fills the five fields and returns.  For a path ending in [.txt]
    the error is raised as claimed. *)
Theorem from_file_loads_path_without_extension :
  (forall (file_contents : string -> Result string)
          (csv_first_row json_load : string -> Result (dict string))
          (self : AmazonIAMUser.t) (log : AmazonIAMUser.opened),
      AmazonIAMUser.from_file file_contents csv_first_row json_load "csv" self log
      = match file <- file_contents "csv" ;; csv_first_row file with
        | Raise e => (self, (log ++ ["csv"])%list, Raise e)
        | Ok credentials =>
            (fst (AmazonIAMUser._update_fields credentials self),
             (log ++ ["csv"])%list,
             snd (AmazonIAMUser._update_fields credentials self))
        end
      /\ AmazonIAMUser.from_file file_contents csv_first_row json_load "json" self log
         = match file <- file_contents "json" ;; json_load file with
           | Raise e => (self, (log ++ ["json"])%list, Raise e)
           | Ok credentials =>
               (fst (AmazonIAMUser._update_fields credentials self),
                (log ++ ["json"])%list,
                snd (AmazonIAMUser._update_fields credentials self))
           end)
  /\ AmazonIAMUser.from_file any_file sample_record no_record "csv"
       AmazonIAMUser.__init__ []
     = ({| AmazonIAMUser.user_name := AmazonIAMUser.Value "alice";
           AmazonIAMUser.password := AmazonIAMUser.Value "secret";
           AmazonIAMUser.access_key_id := AmazonIAMUser.Value "AKIA";
           AmazonIAMUser.secret_access_key := AmazonIAMUser.Value "key";
           AmazonIAMUser.console_login_link := AmazonIAMUser.Value "https://link" |},
        ["csv"], Ok tt)
  /\ AmazonIAMUser.from_file no_file no_record no_record "json"
       AmazonIAMUser.__init__ []
     = (AmazonIAMUser.__init__, ["json"], Raise (OSError "json"))
  /\ AmazonIAMUser.from_file any_file sample_record no_record "credentials.txt"
       AmazonIAMUser.__init__ []
     = (AmazonIAMUser.__init__, [], Raise (Exception "Unknown file extension")).
Proof.
  split; [|repeat split; reflexivity].
  intros file_contents csv_first_row json_load self log.
  unfold AmazonIAMUser.from_file.
  change (AmazonIAMUser.extension "csv") with "csv".
  change (AmazonIAMUser.extension "json") with "json".
  change (String.eqb "csv" "csv") with true.
  change (String.eqb "json" "csv") with false.
  change (String.eqb "json" "json") with true.
  cbn iota. unfold AmazonIAMUser._load_csv, AmazonIAMUser._load_json.
  split.
  - destruct (file <- file_contents "csv" ;; csv_first_row file)
      as [credentials|e]; [|reflexivity].
    now destruct (AmazonIAMUser._update_fields credentials self).
  - destruct (file <- file_contents "json" ;; json_load file)
      as [credentials|e]; [|reflexivity].
    now destruct (AmazonIAMUser._update_fields credentials self).
Qed.

(* ================================================================== *)
(** ** Further properties: the serializer                               *)
(* ================================================================== *)

(** Induction over an element tree, with the property known for all
    children. *)
Lemma Element_nested_ind (P : ET.Element -> Prop) :
  (forall tg items txt cs, Forall P cs -> P (ET.Elem tg items txt cs)) ->
  forall e, P e.
Proof.
  intros H. fix IH 1. intros [tg items txt cs].
  apply H. induction cs as [|c cs IHcs]; constructor; [apply IH | exact IHcs].
Qed.

(** The serializer raises exactly when some node holds a non-zero [int]
    as text. *)
Lemma serialize_ok_iff (e : ET.Element) :
  is_ok (ET._serialize_xml e) = ET.forall_nodes serializable_text e.
Proof.
  induction e as [tg items txt cs IH] using Element_nested_ind.
  cbn [ET._serialize_xml ET.forall_nodes].
  set (ser := fix serialize_children (l : list ET.Element) : Result string :=
                match l with
                | [] => Ok ""
                | e :: l' =>
                    s <- ET._serialize_xml e ;;
                    r <- serialize_children l' ;;
                    Ok (s ++ r)
                end).
  set (allc := fix all_children (l : list ET.Element) : bool :=
                 match l with
                 | [] => true
                 | c :: l' => ET.forall_nodes serializable_text c && all_children l'
                 end).
  assert (Hcs : is_ok (ser cs) = allc cs).
  { induction IH as [|c cs Hc _ IHcs]; [reflexivity|].
    cbn [ser allc]. fold ser. fold allc.
    rewrite <- Hc, <- IHcs.
    destruct (ET._serialize_xml c); [|reflexivity].
    cbn [bind]. destruct (ser cs); reflexivity. }
  rewrite <- Hcs.
  unfold serializable_text. cbn [ET.text].
  destruct txt as [|s|k]; cbn [truthy].
  - destruct cs as [|c cs]; [reflexivity|].
    cbn [List.length Nat.eqb negb orb bind]. destruct (ser (c :: cs)); reflexivity.
  - destruct (truthy_str s); cbn [orb ET._escape_cdata bind].
    + destruct (ser cs); reflexivity.
    + destruct cs as [|c cs]; [reflexivity|].
      cbn [List.length Nat.eqb negb bind]. destruct (ser (c :: cs)); reflexivity.
  - destruct (truthy_int k); cbn [orb ET._escape_cdata bind negb andb].
    + reflexivity.
    + destruct cs as [|c cs]; [reflexivity|].
      cbn [List.length Nat.eqb negb bind]. destruct (ser (c :: cs)); reflexivity.
Qed.

Lemma untouched_nil : untouched "".
Proof. intros t. reflexivity. Qed.

Lemma untouched_app (a b : string) :
  untouched a -> untouched b -> untouched (a ++ b).
Proof.
  intros Ha Hb t. now rewrite append_assoc, Ha, Hb, append_assoc.
Qed.

Lemma untouched_not_lt (s : string) :
  all_chars not_lt s = true -> untouched s.
Proof. intros H t. now apply sub_from_not_lt. Qed.

Lemma untouched_close : untouched "</".
Proof. intros t. reflexivity. Qed.

(** ['<'] followed by a character other than ['?'] starts no declaration. *)
Lemma untouched_open (c : ascii) (rest : string) :
  not_lt c = true -> Ascii.eqb c "?" = false ->
  all_chars not_lt rest = true ->
  untouched ("<" ++ String c rest).
Proof.
  intros Hc Hq Hrest t.
  change (("<" ++ String c rest) ++ t) with (String "<" (String c rest ++ t)).
  cbn [re.sub_from prefix append].
  destruct (ascii_dec "<" "<") as [_|F]; [|now destruct F].
  destruct (ascii_dec "?" c) as [<-|_]; [discriminate Hq|].
  destruct (ascii_dec "<" c) as [<-|_]; [discriminate Hc|].
  now rewrite (sub_from_not_lt rest t Hrest).
Qed.

Lemma charref_head (c : ascii) :
  not_lt c = true -> Ascii.eqb c "?" = false ->
  exists c' r,
    ET.charref c = String c' r
    /\ not_lt c' = true /\ Ascii.eqb c' "?" = false
    /\ all_chars not_lt r = true.
Proof.
  each_character c; intros H1 H2;
    solve [ vm_compute in H1; discriminate H1
          | vm_compute in H2; discriminate H2
          | eexists; eexists; repeat split; vm_compute; reflexivity ].
Qed.

Lemma plain_tag_not_lt (tg : string) :
  plain_tag tg = true -> all_chars not_lt tg = true.
Proof.
  destruct tg as [|c r]; [discriminate|].
  unfold plain_tag. intros H. now apply andb_true_iff in H as [_ H].
Qed.

Lemma untouched_open_tag (tg : string) :
  plain_tag tg = true -> untouched ("<" ++ ET.ascii_encode tg).
Proof.
  intros H. pose proof (plain_tag_not_lt tg H) as Hall.
  destruct tg as [|c r]; [discriminate|].
  unfold plain_tag in H.
  apply andb_true_iff in H as [H _]. apply andb_true_iff in H as [_ Hq].
  apply negb_true_iff in Hq.
  cbn [all_chars] in Hall. apply andb_true_iff in Hall as [Hc Hr].
  destruct (charref_head c Hc Hq) as [c' [r' [E [Hc' [Hq' Hr']]]]].
  cbn [ET.ascii_encode]. rewrite E.
  change (String c' r' ++ ET.ascii_encode r)
    with (String c' (r' ++ ET.ascii_encode r)).
  apply untouched_open; [exact Hc' | exact Hq' |].
  now rewrite all_chars_app, Hr', (ascii_encode_not_lt r Hr).
Qed.

Lemma escape_attrib_not_lt (s : string) :
  all_chars not_lt (ET._escape_attrib s) = true.
Proof.
  unfold ET._escape_attrib.
  do 5 (apply replace_preserves; [reflexivity|]).
  apply (replace_removes "<" "&lt;"). reflexivity.
Qed.

Lemma plain_key_not_lt (k : string) :
  plain_key k = true -> all_chars not_lt k = true.
Proof. unfold plain_key. intros H. now apply andb_true_iff in H as [_ H]. Qed.

Lemma serialize_items_not_lt (items : dict string) :
  forallb (fun kv => plain_key (fst kv)) items = true ->
  all_chars not_lt (ET.serialize_items items) = true.
Proof.
  unfold ET.serialize_items.
  induction items as [|[k v] items IH]; [reflexivity|].
  cbn [forallb map fst snd]. intros H. apply andb_true_iff in H as [Hk Hrest].
  assert (Hone : all_chars not_lt
                   (" " ++ k ++ "=" ++ dquote ++ ET._escape_attrib v ++ dquote) = true).
  { rewrite !all_chars_app, (plain_key_not_lt k Hk), escape_attrib_not_lt.
    reflexivity. }
  specialize (IH Hrest).
  destruct items as [|kv items]; [exact Hone|].
  cbn [String.concat map] in *.
  rewrite all_chars_app, Hone. cbn [append]. exact IH.
Qed.

(** What the serializer writes for a tree with plain names, once encoded,
    holds nothing the substitution could take for a declaration. *)
Lemma serialize_untouched (e : ET.Element) :
  forall body,
    plain_tree e = true ->
    ET._serialize_xml e = Ok body ->
    untouched (ET.ascii_encode body).
Proof.
  induction e as [tg items txt cs IH] using Element_nested_ind.
  intros body Hplain.
  unfold plain_tree in Hplain. cbn [ET.forall_nodes ET.tag ET.attrib] in Hplain.
  apply andb_true_iff in Hplain as [Hnode Hkids].
  apply andb_true_iff in Hnode as [Htag Hitems].
  cbn [ET._serialize_xml].
  set (ser := fix serialize_children (l : list ET.Element) : Result string :=
                match l with
                | [] => Ok ""
                | e :: l' =>
                    s <- ET._serialize_xml e ;;
                    r <- serialize_children l' ;;
                    Ok (s ++ r)
                end).
  assert (Hser : forall kids, ser cs = Ok kids -> untouched (ET.ascii_encode kids)).
  { clear - IH Hkids.
    induction IH as [|c cs Hc _ IHcs]; intros kids.
    - cbn. intros [= <-]. apply untouched_nil.
    - apply andb_true_iff in Hkids as [Hpc Hpcs].
      cbn [ser]. fold ser.
      destruct (ET._serialize_xml c) as [s|] eqn:Es; [|discriminate].
      cbn [bind]. destruct (ser cs) as [r|] eqn:Er; [|discriminate].
      cbn [bind]. intros [= <-].
      rewrite ascii_encode_app. apply untouched_app.
      + now apply Hc.
      + now apply IHcs. }
  assert (Hstart : untouched (ET.ascii_encode ("<" ++ tg ++ ET.serialize_items items))).
  { rewrite !ascii_encode_app. change (ET.ascii_encode "<") with "<".
    rewrite <- append_assoc. apply untouched_app.
    - now apply untouched_open_tag.
    - apply untouched_not_lt, ascii_encode_not_lt, serialize_items_not_lt, Hitems. }
  assert (Hend : untouched (ET.ascii_encode ("</" ++ tg ++ ">"))).
  { rewrite !ascii_encode_app. change (ET.ascii_encode "</") with "</".
    apply untouched_app; [apply untouched_close|].
    apply untouched_not_lt. rewrite all_chars_app.
    now rewrite (ascii_encode_not_lt tg (plain_tag_not_lt tg Htag)). }
  destruct (truthy txt || negb (Nat.eqb (List.length cs) 0)).
  - destruct (if truthy txt then ET._escape_cdata txt else Ok "") as [t|] eqn:Et;
      [|discriminate].
    cbn [bind]. destruct (ser cs) as [kids|] eqn:Ek; [|discriminate].
    cbn [bind]. intros [= <-].
    assert (Ht : all_chars not_lt t = true).
    { destruct (truthy txt).
      - destruct txt as [|s|k]; try discriminate.
        cbn in Et. injection Et as <-. apply escape_cdata_str_not_lt.
      - now injection Et as <-. }
    change (untouched
              (ET.ascii_encode
                 (("<" ++ tg ++ ET.serialize_items items)
                  ++ ">" ++ t ++ kids ++ ("</" ++ tg ++ ">")))).
    rewrite ascii_encode_app. apply untouched_app; [exact Hstart|].
    rewrite (ascii_encode_app ">"). apply untouched_app; [now apply untouched_not_lt|].
    rewrite (ascii_encode_app t).
    apply untouched_app; [now apply untouched_not_lt, ascii_encode_not_lt|].
    rewrite (ascii_encode_app kids).
    apply untouched_app; [now apply Hser | exact Hend].
  - intros [= <-].
    change (untouched
              (ET.ascii_encode (("<" ++ tg ++ ET.serialize_items items) ++ " />"))).
    rewrite ascii_encode_app. apply untouched_app; [exact Hstart|].
    now apply untouched_not_lt.
Qed.

Lemma forall_nodes_children (p : ET.Element -> bool) (tg : string)
    (items : dict string) (txt : obj) (cs : list ET.Element) :
  ET.forall_nodes p (ET.Elem tg items txt cs)
  = p (ET.Elem tg items txt cs) && forallb (ET.forall_nodes p) cs.
Proof.
  reflexivity.
Qed.

(** X1.  For a tree whose tags and attribute names are plain, rendering
    without pretty-printing and without URL encoding is exactly what the
    serializer writes for the tree, ASCII-encoded: the declaration and the
    line feed after it are removed and nothing else, even when a text of the
    tree itself reads like a declaration. *)
Theorem unformatted_rendering_is_serialized_tree :
  forall (self : XMLWrapper.t) (root_name : option string) (indent : Z),
    plain_tree (XMLWrapper.compile_elements self root_name) = true ->
    XMLWrapper.to_string self root_name false false indent
    = fmap ET.ascii_encode
        (ET._serialize_xml (XMLWrapper.compile_elements self root_name)).
Proof.
  intros self root_name indent Hplain.
  unfold XMLWrapper.to_string, ET.tostring, fmap.
  destruct (ET._serialize_xml (XMLWrapper.compile_elements self root_name))
    as [body|e] eqn:E; [|reflexivity].
  cbn [bind]. f_equal.
  rewrite ascii_encode_app.
  change (ET.ascii_encode ET.xml_declaration) with ET.xml_declaration.
  unfold re.sub_xml_declaration. rewrite sub_from_declaration.
  cbn [drop_first].
  pose proof (serialize_untouched _ body Hplain E "") as H.
  rewrite append_nil_r in H. rewrite H. cbn [re.sub_from]. apply append_nil_r.
Qed.

Lemma unformatted_rendering_is_serialized_tree_witness :
  plain_tree (XMLWrapper.compile_elements sample_tree None) = true
  /\ XMLWrapper.to_string sample_tree None false false 4
     = fmap ET.ascii_encode
         (ET._serialize_xml (XMLWrapper.compile_elements sample_tree None)).
Proof.
  split; [reflexivity|].
  apply unformatted_rendering_is_serialized_tree. reflexivity.
Defined.

Lemma to_string_unformatted_ok (self : XMLWrapper.t) (root_name : option string)
    (url_safe : bool) (indent : Z) :
  is_ok (XMLWrapper.to_string self root_name url_safe false indent)
  = forallb (ET.forall_nodes serializable_text) (XMLWrapper._elements self).
Proof.
  unfold XMLWrapper.to_string, ET.tostring.
  pose proof (serialize_ok_iff (XMLWrapper.compile_elements self root_name)) as H.
  unfold XMLWrapper.compile_elements in *.
  rewrite forall_nodes_children in H. cbn [serializable_text ET.text andb] in H.
  rewrite <- H.
  destruct (ET._serialize_xml _); reflexivity.
Qed.

(** The only exception the serializer raises is its [TypeError]. *)
Lemma serialize_raises_type_error (e : ET.Element) :
  ok_or_type_error (ET._serialize_xml e) = true.
Proof.
  induction e as [tg items txt cs IH] using Element_nested_ind.
  cbn [ET._serialize_xml].
  set (ser := fix serialize_children (l : list ET.Element) : Result string :=
                match l with
                | [] => Ok ""
                | e :: l' =>
                    s <- ET._serialize_xml e ;;
                    r <- serialize_children l' ;;
                    Ok (s ++ r)
                end).
  assert (Hcs : ok_or_type_error (ser cs) = true).
  { induction IH as [|c cs Hc _ IHcs]; [reflexivity|].
    cbn [ser]. fold ser.
    destruct (ET._serialize_xml c) as [s|x]; [|exact Hc].
    cbn [bind]. destruct (ser cs) as [r|x]; [reflexivity | exact IHcs]. }
  destruct (truthy txt || negb (Nat.eqb (List.length cs) 0)); [|reflexivity].
  destruct txt as [|s|k]; cbn [truthy ET._escape_cdata].
  - cbn [bind]. destruct (ser cs) as [r|x]; [reflexivity | exact Hcs].
  - destruct (truthy_str s); cbn [bind];
      (destruct (ser cs) as [r|x]; [reflexivity | exact Hcs]).
  - destruct (truthy_int k); cbn [bind]; [reflexivity|].
    destruct (ser cs) as [r|x]; [reflexivity | exact Hcs].
Qed.

(** X2.  For a tree whose tags and attribute names are plain, rendering
    without pretty-printing raises exactly when some node of some element
    holds a non-zero [int] as its text; with [None], [str] and 0 texts only,
    it returns.  What it raises is the serializer's [TypeError], never
    anything else. *)
Theorem unformatted_rendering_raises_iff_int_text :
  forall (self : XMLWrapper.t) (root_name : option string)
         (url_safe : bool) (indent : Z),
    plain_tree (XMLWrapper.compile_elements self root_name) = true ->
    is_ok (XMLWrapper.to_string self root_name url_safe false indent)
    = forallb (ET.forall_nodes serializable_text) (XMLWrapper._elements self)
    /\ ok_or_type_error
         (XMLWrapper.to_string self root_name url_safe false indent) = true.
Proof.
  intros self root_name url_safe indent _.
  split; [apply to_string_unformatted_ok|].
  pose proof (serialize_raises_type_error
                (XMLWrapper.compile_elements self root_name)) as H.
  unfold XMLWrapper.to_string, ET.tostring.
  destruct (ET._serialize_xml (XMLWrapper.compile_elements self root_name));
    [reflexivity | exact H].
Qed.

Lemma unformatted_rendering_raises_iff_int_text_witness :
  plain_tree (XMLWrapper.compile_elements apple_banana None) = true
  /\ (is_ok (XMLWrapper.to_string apple_banana None false false 4)
      = forallb (ET.forall_nodes serializable_text) (XMLWrapper._elements apple_banana)
      /\ ok_or_type_error (XMLWrapper.to_string apple_banana None false false 4)
         = true)
  /\ forallb (ET.forall_nodes serializable_text) (XMLWrapper._elements apple_banana)
     = false.
Proof.
  split; [reflexivity|].
  split; [|reflexivity].
  apply unformatted_rendering_raises_iff_int_text. reflexivity.
Defined.

(* ================================================================== *)
(** ** Further properties: Content                                      *)
(* ================================================================== *)

Lemma after_appends_fragment (c : Content.call) (self : Content.t) :
  XMLWrapper._elements (Content.after c self)
  = (XMLWrapper._elements self ++ [fragment c])%list.
Proof. destruct c; reflexivity. Qed.

Lemma after_keeps_class (c : Content.call) (self : Content.t) :
  XMLWrapper.class_name (Content.after c self) = XMLWrapper.class_name self
  /\ XMLWrapper._attributes (Content.after c self) = XMLWrapper._attributes self.
Proof. destruct c; split; reflexivity. Qed.

Lemma fragment_has_tag (c : Content.call) : ET.tag (fragment c) = fragment_tag c.
Proof. destruct c; reflexivity. Qed.

Lemma after_all_elements (cs : list Content.call) :
  forall self : Content.t,
    XMLWrapper._elements (Content.after_all cs self)
    = (XMLWrapper._elements self ++ map fragment cs)%list.
Proof.
  unfold Content.after_all.
  induction cs as [|c cs IH]; intros self; cbn [fold_left map].
  - now rewrite app_nil_r.
  - rewrite IH, after_appends_fragment, <- app_assoc. reflexivity.
Qed.

Lemma after_all_keeps_class (cs : list Content.call) :
  forall self : Content.t,
    XMLWrapper.class_name (Content.after_all cs self) = XMLWrapper.class_name self
    /\ XMLWrapper._attributes (Content.after_all cs self)
       = XMLWrapper._attributes self.
Proof.
  unfold Content.after_all.
  induction cs as [|c cs IH]; intros self; cbn [fold_left]; [now split|].
  destruct (IH (Content.after c self)) as [H1 H2].
  destruct (after_keeps_class c self) as [H3 H4].
  split; congruence.
Qed.

(** X3.  A chain of builder calls only appends: the elements present before
    stay where they are, and exactly one element per call follows them, in
    call order; each appended element depends on its own call only and
    carries the tag of that call; the length grows by the number of calls;
    class name and attributes are untouched. *)
Theorem content_chain_appends_in_call_order :
  forall (cs : list Content.call) (self : Content.t),
    XMLWrapper._elements (Content.after_all cs self)
    = (XMLWrapper._elements self ++ map fragment cs)%list
    /\ tags (map fragment cs) = map fragment_tag cs
    /\ XMLWrapper.__len__ (Content.after_all cs self)
       = (XMLWrapper.__len__ self + List.length cs)%nat
    /\ XMLWrapper.class_name (Content.after_all cs self)
       = XMLWrapper.class_name self
    /\ XMLWrapper._attributes (Content.after_all cs self)
       = XMLWrapper._attributes self.
Proof.
  intros cs self. split; [apply after_all_elements|].
  split.
  { unfold tags. rewrite map_map. apply map_ext. exact fragment_has_tag. }
  split.
  { unfold XMLWrapper.__len__.
    now rewrite after_all_elements, length_app, length_map. }
  apply after_all_keeps_class.
Qed.

Lemma list_items_serializable (items : list string) :
  forallb (ET.forall_nodes serializable_text)
    (map (fun i => ET.text_element "ListItem" (PyStr i)) items) = true.
Proof. induction items as [|i items IH]; [reflexivity | exact IH]. Qed.

Lemma fragment_serializable (c : Content.call) :
  ET.forall_nodes serializable_text (fragment c) = true.
Proof.
  destruct c as [title | text | text | items | url alt_text];
    try reflexivity.
  - unfold fragment. cbn [Content.after Content.add_list XMLWrapper.append_element
      XMLWrapper._elements Content.__init__ XMLWrapper.__init__ app last].
    rewrite forall_nodes_children. apply list_items_serializable.
  - unfold fragment.
    cbn [Content.after Content.add_image XMLWrapper.append_element
      XMLWrapper._elements Content.__init__ XMLWrapper.__init__ app last].
    destruct (truthy_str (last_segment (split "." url))); reflexivity.
Qed.

Lemma content_chain_str_texts (cs : list Content.call) (self : Content.t) :
  str_texts (Content.after_all cs self) = str_texts self.
Proof.
  unfold str_texts. rewrite after_all_elements, forallb_app.
  replace (forallb (ET.forall_nodes serializable_text) (map fragment cs)) with true;
    [apply andb_true_r|].
  symmetry. apply forallb_forall. intros e He.
  apply in_map_iff in He as [c [<- _]]. apply fragment_serializable.
Qed.

(** X4.  Whatever the chain of builder calls and whatever the strings given
    to them, rendering a [Content] without pretty-printing returns: under its
    own name, as [Overview] and as [QuestionContent], URL-safe or not. *)
Theorem content_rendering_never_raises :
  forall (cs : list Content.call) (url_safe : bool) (indent : Z),
    let content := Content.after_all cs Content.__init__ in
    is_ok (XMLWrapper.to_string content None url_safe false indent) = true
    /\ is_ok (XMLWrapper.to_string content (Some "Overview") url_safe false indent)
       = true
    /\ is_ok (XMLWrapper.to_string content (Some "QuestionContent") url_safe false
                indent) = true.
Proof.
  intros cs url_safe indent content. subst content.
  rewrite !to_string_unformatted_ok.
  fold (str_texts (Content.after_all cs Content.__init__)).
  rewrite content_chain_str_texts. repeat split; reflexivity.
Qed.

(* ================================================================== *)
(** ** Further properties: which answers, questions and forms render    *)
(* ================================================================== *)

Lemma selections_serializable (selections : dict string) :
  forallb (ET.forall_nodes serializable_text)
    (map (fun kv =>
            ET.Elem "Selection" [] PyNone
              [ET.text_element "SelectionIdentifier" (PyStr (fst kv));
               ET.text_element "Text" (PyStr (snd kv))])
         selections) = true.
Proof. induction selections as [|kv l IH]; [reflexivity | exact IH]. Qed.

Lemma selection_answer_str_texts (selections : dict string)
    (answer_style : option string) (min_selections max_selections : option Z) :
  str_texts
    (SelectionAnswer.__init__ selections answer_style min_selections max_selections)
  = negb (truthy_opt_int min_selections || truthy_opt_int max_selections).
Proof.
  unfold str_texts, SelectionAnswer.__init__, SelectionAnswer._add_selections,
    XMLWrapper.append_element.
  cbn [XMLWrapper._elements].
  rewrite forallb_app. cbn [forallb].
  rewrite forall_nodes_children, selections_serializable.
  cbn [serializable_text ET.text andb]. rewrite andb_true_r.
  destruct min_selections as [a|], max_selections as [b|],
      answer_style as [[|c s]|]; cbn [truthy_opt_int];
    try destruct (truthy_int a) eqn:Ea; try destruct (truthy_int b) eqn:Eb;
    cbn; rewrite ?Ea, ?Eb; reflexivity.
Qed.

Lemma free_text_answer_str_texts (default_text : option string)
    (lines_in_box : option Z) (reg_exp error_text : option string)
    (min_length max_length : option Z) (is_numeric : bool)
    (min_val max_val : option Z) :
  str_texts
    (FreeTextAnswer.__init__ default_text lines_in_box reg_exp error_text
       min_length max_length is_numeric min_val max_val) = true.
Proof.
  unfold str_texts, FreeTextAnswer.__init__, FreeTextAnswer._add_constraints.
  destruct default_text as [[|c d]|], lines_in_box as [[|n|n]|],
      reg_exp as [[|c' r]|], min_length as [[|a|a]|], max_length as [[|b|b]|],
      is_numeric; reflexivity.
Qed.

Lemma build_answer_str_texts (a : answer_spec) :
  str_texts (build_answer a) = negb (has_selection_count a).
Proof.
  destruct a; cbn [build_answer has_selection_count negb].
  - apply free_text_answer_str_texts.
  - apply selection_answer_str_texts.
Qed.

(** X5.  A [SelectionAnswer] can be rendered (without pretty-printing)
    exactly when neither [min_selections] nor [max_selections] is a
    non-zero number; with such a count every rendering, pretty-printed or
    not, raises.  A [FreeTextAnswer] can be rendered whatever its arguments. *)
Theorem answer_renders_iff_no_selection_count :
  forall (a : answer_spec) (url_safe formatted : bool) (indent : Z),
    is_ok (XMLWrapper.to_string (build_answer a) None url_safe false indent)
    = negb (has_selection_count a)
    /\ is_ok (XMLWrapper.to_string (build_answer a) None url_safe formatted indent)
       && has_selection_count a = false.
Proof.
  intros a url_safe formatted indent.
  assert (H : is_ok (XMLWrapper.to_string (build_answer a) None url_safe false indent)
              = negb (has_selection_count a)).
  { rewrite to_string_unformatted_ok. apply build_answer_str_texts. }
  split; [exact H|].
  destruct (has_selection_count a); [|apply andb_false_r].
  rewrite andb_true_r.
  destruct formatted; [|exact H].
  unfold XMLWrapper.to_string in *.
  destruct (ET.tostring (XMLWrapper.compile_elements (build_answer a) None));
    [discriminate H | reflexivity].
Qed.

Lemma question_str_texts (content : Content.t) (answer : XMLWrapper.t)
    (name : option string) (is_required : bool) (question_id : option string)
    (_ID : Z) :
  str_texts
    (Question.base
       (fst (Question.__init__ content answer name is_required question_id _ID)))
  = str_texts content && str_texts answer.
Proof.
  unfold str_texts, Question.__init__.
  destruct name as [[|c s]|];
    cbn; rewrite ?andb_true_r; reflexivity.
Qed.

(** X6.  A [Question] built from any chain of content calls and any answer
    can be rendered (without pretty-printing) exactly when its answer is not
    a [SelectionAnswer] with a non-zero selection count: its content, name,
    identifier and the counter play no part. *)
Theorem question_renders_iff_answer_renders :
  forall (s : question_spec) (_ID : Z) (url_safe : bool) (indent : Z),
    is_ok
      (XMLWrapper.to_string
         (Question.base (fst (Question.construct (question_args s) _ID)))
         None url_safe false indent)
    = negb (has_selection_count (answer_of s)).
Proof.
  intros s _ID url_safe indent.
  rewrite to_string_unformatted_ok.
  fold (str_texts (Question.base (fst (Question.construct (question_args s) _ID)))).
  unfold Question.construct. rewrite question_str_texts.
  cbn [question_args Question.content Question.answer].
  rewrite content_chain_str_texts, build_answer_str_texts. reflexivity.
Qed.

Lemma constructed_questions_str_texts (l : list Question.args) :
  forall n,
    forallb (fun q => str_texts (Question.base q))
      (fst (Question.construct_all l n))
    = forallb (fun a => str_texts (Question.content a)
                        && str_texts (Question.answer a)) l.
Proof.
  induction l as [|a l IH]; intros n; [reflexivity|].
  rewrite construct_all_cons. cbn [fst forallb].
  rewrite IH. f_equal. apply question_str_texts.
Qed.

Lemma form_after_all_str_texts (qs : list Question.t) :
  forall form : QuestionForm.t,
    str_texts (QuestionForm.after_all (map QuestionForm.Add_question qs) form)
    = str_texts form && forallb (fun q => str_texts (Question.base q)) qs.
Proof.
  unfold QuestionForm.after_all.
  induction qs as [|q qs IH]; intros form; cbn [map fold_left forallb].
  - now rewrite andb_true_r.
  - rewrite IH. rewrite andb_assoc. f_equal.
    unfold str_texts, QuestionForm.after, QuestionForm.add_question,
      XMLWrapper.append_element, XMLWrapper.compile_elements.
    cbn [XMLWrapper._elements]. rewrite forallb_app. cbn [forallb].
    rewrite forall_nodes_children. cbn [serializable_text ET.text andb].
    now rewrite andb_true_r.
Qed.

Lemma forallb_of_map {A B : Type} (f : B -> bool) (g : A -> B) (l : list A) :
  forallb f (map g l) = forallb (fun x => f (g x)) l.
Proof. induction l as [|x l IH]; [reflexivity|]. cbn. now rewrite IH. Qed.

Lemma forallb_pointwise {A : Type} (f g : A -> bool) (l : list A) :
  (forall x, f x = g x) -> forallb f l = forallb g l.
Proof.
  intros H. induction l as [|x l IH]; [reflexivity|]. cbn. now rewrite H, IH.
Qed.

(** X7.  A [QuestionForm] holding questions built from any contents and
    answers can be rendered (without pretty-printing) exactly when none of
    its questions has a [SelectionAnswer] with a non-zero selection count. *)
Theorem form_renders_iff_no_selection_count :
  forall (l : list question_spec) (_ID : Z) (url_safe : bool) (indent : Z),
    is_ok (XMLWrapper.to_string (build_form l _ID) None url_safe false indent)
    = forallb (fun s => negb (has_selection_count (answer_of s))) l.
Proof.
  intros l _ID url_safe indent.
  rewrite to_string_unformatted_ok. fold (str_texts (build_form l _ID)).
  unfold build_form.
  rewrite form_after_all_str_texts, constructed_questions_str_texts.
  cbn [andb]. rewrite forallb_of_map. apply forallb_pointwise. intros s.
  cbn [question_args Question.content Question.answer].
  now rewrite content_chain_str_texts, build_answer_str_texts.
Qed.

(* ================================================================== *)
(** ** Further properties: URL-safe encoding                            *)
(* ================================================================== *)

Lemma percent_code_not_in_encoder (c : ascii) :
  all_chars not_in_encoder (Spec.percent_code c) = true.
Proof. each_character c; vm_compute; reflexivity. Qed.

Lemma encode_for_url_not_in_encoder (text : string) :
  all_chars not_in_encoder (XMLWrapper._encode_for_url text) = true.
Proof.
  rewrite encode_for_url_spec.
  induction text as [|c rest IH]; [reflexivity|].
  cbn [Spec.url_safe]. now rewrite all_chars_app, percent_code_not_in_encoder, IH.
Qed.

Lemma encode_for_url_fixes_char (c : ascii) :
  not_in_encoder c = true -> XMLWrapper._encode_for_url (String c "") = String c "".
Proof.
  each_character c; intros H;
    solve [vm_compute; reflexivity | vm_compute in H; discriminate H].
Qed.

Lemma encode_for_url_fixes (text : string) :
  all_chars not_in_encoder text = true -> XMLWrapper._encode_for_url text = text.
Proof.
  induction text as [|c rest IH]; [reflexivity|].
  cbn [all_chars]. intros H. apply andb_true_iff in H as [Hc Hrest].
  change (String c rest) with (String c "" ++ rest).
  now rewrite encode_for_url_app, (encode_for_url_fixes_char c Hc), (IH Hrest).
Qed.

(** X8.  The text [_encode_for_url] returns holds none of the nine
    characters of its table, and so does every URL-safe rendering that
    returns, pretty-printed or not. *)
Theorem url_safe_output_has_no_reserved_character :
  (forall text : string,
      all_chars not_in_encoder (XMLWrapper._encode_for_url text) = true)
  /\ (forall (self : XMLWrapper.t) (root_name : option string)
             (formatted : bool) (indent : Z),
        match XMLWrapper.to_string self root_name true formatted indent with
        | Ok text => all_chars not_in_encoder text
        | Raise _ => true
        end = true).
Proof.
  split; [exact encode_for_url_not_in_encoder|].
  intros self root_name formatted indent.
  rewrite to_string_url_safe_last. unfold fmap.
  destruct (XMLWrapper.to_string self root_name false formatted indent);
    [apply encode_for_url_not_in_encoder | reflexivity].
Qed.

(** X9.  Encoding an encoded text again changes nothing; and the encoding
    cannot be undone, because ['%'] itself is left as it is: the texts [$]
    and [%24] are encoded to the same text. *)
Theorem url_safe_encoding_idempotent_not_injective :
  (forall text : string,
      XMLWrapper._encode_for_url (XMLWrapper._encode_for_url text)
      = XMLWrapper._encode_for_url text)
  /\ (exists a b : string,
        a <> b /\ XMLWrapper._encode_for_url a = XMLWrapper._encode_for_url b).
Proof.
  split.
  - intros text. apply encode_for_url_fixes, encode_for_url_not_in_encoder.
  - exists "$", "%24". split; [discriminate | reflexivity].
Qed.

(* ================================================================== *)
(** ** Further properties: FreeTextAnswer                               *)
(* ================================================================== *)

(** X11.  A [FreeTextAnswer] has a [Constraints] element exactly when one of
    [reg_exp], [min_length], [max_length], [is_numeric] is given (non-empty,
    non-zero, true); there is at most one, and it is never empty: it holds
    one or two constraints. *)
Theorem constraints_present_iff_some_constraint :
  forall (default_text : option string) (lines_in_box : option Z)
         (reg_exp error_text : option string) (min_length max_length : option Z)
         (is_numeric : bool) (min_val max_val : option Z),
    let answer :=
      FreeTextAnswer.__init__ default_text lines_in_box reg_exp error_text
        min_length max_length is_numeric min_val max_val in
    ET.has_tag "Constraints" (XMLWrapper.compile_elements answer None)
    = any [truthy_opt_str reg_exp; truthy_opt_int min_length;
           truthy_opt_int max_length; is_numeric]
    /\ count_tag "Constraints" (XMLWrapper._elements answer)
       = (if any [truthy_opt_str reg_exp; truthy_opt_int min_length;
                  truthy_opt_int max_length; is_numeric]
          then 1 else 0)%nat
    /\ constraints_filled (XMLWrapper._elements answer) = true.
Proof.
  intros. subst answer.
  unfold FreeTextAnswer.__init__, FreeTextAnswer._add_constraints.
  destruct default_text as [[|c d]|], lines_in_box as [[|n|n]|],
      reg_exp as [[|c' r]|], min_length as [[|a|a]|], max_length as [[|b|b]|],
      is_numeric; repeat split; reflexivity.
Qed.

Lemma numeric_ignores_text_constraints (default_text : option string)
    (lines_in_box : option Z) (reg_exp error_text : option string)
    (min_length max_length : option Z) (min_val max_val : option Z) :
  FreeTextAnswer.__init__ default_text lines_in_box reg_exp error_text
    min_length max_length true min_val max_val
  = FreeTextAnswer.__init__ default_text lines_in_box None None
      None None true min_val max_val.
Proof.
  unfold FreeTextAnswer.__init__, FreeTextAnswer._add_constraints.
  destruct reg_exp as [[|c r]|], min_length as [[|a|a]|],
      max_length as [[|b|b]|]; reflexivity.
Qed.

(** X12.  Arguments that are not used.  With [is_numeric=True] the
    arguments [reg_exp], [error_text], [min_length] and [max_length] make no
    difference to the object constructed; without it [min_val] and
    [max_val] make none; and [error_text] makes none when no [reg_exp] is
    given. *)
Theorem free_text_unused_arguments :
  forall (default_text : option string) (lines_in_box : option Z)
         (reg_exp error_text : option string) (min_length max_length : option Z)
         (min_val max_val : option Z),
    FreeTextAnswer.__init__ default_text lines_in_box reg_exp error_text
      min_length max_length true min_val max_val
    = FreeTextAnswer.__init__ default_text lines_in_box None None
        None None true min_val max_val
    /\ FreeTextAnswer.__init__ default_text lines_in_box reg_exp error_text
         min_length max_length false min_val max_val
       = FreeTextAnswer.__init__ default_text lines_in_box reg_exp error_text
           min_length max_length false None None
    /\ (forall is_numeric : bool,
          FreeTextAnswer.__init__ default_text lines_in_box None error_text
            min_length max_length is_numeric min_val max_val
          = FreeTextAnswer.__init__ default_text lines_in_box None None
              min_length max_length is_numeric min_val max_val).
Proof.
  intros. split; [apply numeric_ignores_text_constraints|].
  unfold FreeTextAnswer.__init__, FreeTextAnswer._add_constraints.
  split.
  - destruct reg_exp as [[|c r]|], min_length as [[|a|a]|],
        max_length as [[|b|b]|]; reflexivity.
  - reflexivity.
Qed.

(** X13.  A numeric bound of 0 cannot be expressed: with [is_numeric=True],
    [min_val=0] (or [max_val=0]) gives the object that leaving the bound out
    gives, and the [IsNumeric] element carries no [minValue] (or [maxValue])
    attribute; the attributes are there for the non-zero bounds only, as
    decimal text, [minValue] first. *)
Theorem zero_numeric_bound_is_dropped :
  forall (default_text : option string) (lines_in_box : option Z)
         (reg_exp error_text : option string) (min_length max_length : option Z)
         (min_val max_val : option Z),
    FreeTextAnswer.__init__ default_text lines_in_box reg_exp error_text
      min_length max_length true (Some 0) max_val
    = FreeTextAnswer.__init__ default_text lines_in_box reg_exp error_text
        min_length max_length true None max_val
    /\ FreeTextAnswer.__init__ default_text lines_in_box reg_exp error_text
         min_length max_length true min_val (Some 0)
       = FreeTextAnswer.__init__ default_text lines_in_box reg_exp error_text
           min_length max_length true min_val None
    /\ no_attribute_on "IsNumeric" "minValue"
         (XMLWrapper.compile_elements
            (FreeTextAnswer.__init__ default_text lines_in_box reg_exp error_text
               min_length max_length true (Some 0) max_val) None) = true
    /\ no_attribute_on "IsNumeric" "maxValue"
         (XMLWrapper.compile_elements
            (FreeTextAnswer.__init__ default_text lines_in_box reg_exp error_text
               min_length max_length true min_val (Some 0)) None) = true
    /\ (forall a b : Z,
          FreeTextAnswer._create_is_numeric (Some a) (Some b)
          = ET.Elem "IsNumeric"
              ((if truthy_int a then [("minValue", str a)] else [])
               ++ (if truthy_int b then [("maxValue", str b)] else []))%list
              PyNone []).
Proof.
  intros.
  split; [reflexivity|]. split; [reflexivity|].
  rewrite (numeric_ignores_text_constraints default_text lines_in_box reg_exp
             error_text min_length max_length (Some 0) max_val).
  rewrite (numeric_ignores_text_constraints default_text lines_in_box reg_exp
             error_text min_length max_length min_val (Some 0)).
  split; [|split].
  - destruct default_text as [[|c d]|], lines_in_box as [[|n|n]|],
        max_val as [[|b|b]|]; reflexivity.
  - destruct default_text as [[|c d]|], lines_in_box as [[|n|n]|],
        min_val as [[|a|a]|]; reflexivity.
  - intros a b. unfold FreeTextAnswer._create_is_numeric.
    destruct (truthy_int a), (truthy_int b); reflexivity.
Qed.

(* ================================================================== *)
(** ** Further properties: Question, QuestionForm and AnswerKey         *)
(* ================================================================== *)

(** The first element of a constructed question is its identifier. *)
Lemma question_identified (content : Content.t) (answer : XMLWrapper.t)
    (name : option string) (is_required : bool) (question_id : option string)
    (_ID : Z) :
  let q := fst (Question.__init__ content answer name is_required question_id _ID) in
  exists rest,
    XMLWrapper._elements (Question.base q)
    = ET.text_element "QuestionIdentifier" (PyStr (Question.id q)) :: rest.
Proof.
  unfold Question.__init__.
  destruct name as [[|c s]|]; eexists; reflexivity.
Qed.

Lemma form_ids_add_question (q : Question.t) (form : QuestionForm.t) (rest : list ET.Element) :
  XMLWrapper._elements (Question.base q)
  = ET.text_element "QuestionIdentifier" (PyStr (Question.id q)) :: rest ->
  form_question_ids (QuestionForm.add_question q form)
  = (form_question_ids form ++ [PyStr (Question.id q)])%list.
Proof.
  intros H. unfold form_question_ids, QuestionForm.add_question,
    XMLWrapper.append_element, XMLWrapper.compile_elements.
  cbn [XMLWrapper._elements]. rewrite filter_app, map_app.
  cbn [filter ET.tag String.eqb Ascii.eqb Bool.eqb map ET.children].
  now rewrite H.
Qed.

Lemma form_ids_add_overview (overview : Content.t) (form : QuestionForm.t) :
  form_question_ids (QuestionForm.add_overview overview form)
  = form_question_ids form.
Proof.
  unfold form_question_ids, QuestionForm.add_overview,
    XMLWrapper.append_element, XMLWrapper.compile_elements.
  cbn [XMLWrapper._elements]. rewrite filter_app, map_app.
  cbn. apply app_nil_r.
Qed.

Lemma form_ids_constructed (l : list Question.args) :
  forall (n : Z) (form : QuestionForm.t),
    form_question_ids
      (QuestionForm.after_all
         (map QuestionForm.Add_question (fst (Question.construct_all l n))) form)
    = (form_question_ids form
       ++ map (fun q => PyStr (Question.id q)) (fst (Question.construct_all l n)))%list.
Proof.
  unfold QuestionForm.after_all.
  induction l as [|a l IH]; intros n form.
  - cbn. now rewrite app_nil_r.
  - rewrite construct_all_cons. cbn [fst map fold_left QuestionForm.after].
    rewrite IH.
    destruct (question_identified (Question.content a) (Question.answer a)
                (Question.name a) (Question.is_required a)
                (Question.question_id a) n) as [rest Hrest].
    fold (Question.construct a n) in Hrest.
    rewrite (form_ids_add_question _ form rest Hrest), <- app_assoc.
    reflexivity.
Qed.

Lemma form_after_all_tags (cs : list QuestionForm.call) :
  forall form : QuestionForm.t,
    tags (XMLWrapper._elements (QuestionForm.after_all cs form))
    = (tags (XMLWrapper._elements form) ++ map form_call_tag cs)%list.
Proof.
  unfold QuestionForm.after_all, tags.
  induction cs as [|c cs IH]; intros form; cbn [fold_left map].
  - now rewrite app_nil_r.
  - rewrite IH. destruct c as [overview | question];
      cbn [QuestionForm.after QuestionForm.add_overview QuestionForm.add_question
           XMLWrapper.append_element XMLWrapper._elements];
      rewrite map_app, <- app_assoc; reflexivity.
Qed.

Lemma form_after_all_keeps_attributes (cs : list QuestionForm.call) :
  forall form : QuestionForm.t,
    XMLWrapper._attributes (QuestionForm.after_all cs form)
    = XMLWrapper._attributes form.
Proof.
  unfold QuestionForm.after_all.
  induction cs as [|c cs IH]; intros form; cbn [fold_left]; [reflexivity|].
  rewrite IH. now destruct c.
Qed.

(** X14.  The elements of a form follow the calls made on it: one [Overview]
    or [Question] element per call, in call order, after those it had, the
    namespace attribute staying as it is; an overview adds no question; and
    the questions constructed in a process and added in that order appear
    with their identifiers in that order. *)
Theorem form_elements_follow_call_order :
  (forall (cs : list QuestionForm.call) (form : QuestionForm.t),
      tags (XMLWrapper._elements (QuestionForm.after_all cs form))
      = (tags (XMLWrapper._elements form) ++ map form_call_tag cs)%list
      /\ XMLWrapper._attributes (QuestionForm.after_all cs form)
         = XMLWrapper._attributes form)
  /\ (forall (overview : Content.t) (form : QuestionForm.t),
        form_question_ids (QuestionForm.add_overview overview form)
        = form_question_ids form)
  /\ (forall (l : list Question.args) (_ID : Z) (form : QuestionForm.t),
        let questions := fst (Question.construct_all l _ID) in
        form_question_ids
          (QuestionForm.after_all (map QuestionForm.Add_question questions) form)
        = (form_question_ids form
           ++ map (fun q => PyStr (Question.id q)) questions)%list).
Proof.
  split.
  { intros cs form.
    split; [apply form_after_all_tags | apply form_after_all_keeps_attributes]. }
  split; [exact form_ids_add_overview|].
  intros l _ID form questions. apply form_ids_constructed.
Qed.

Lemma key_ids_after_all (cs : list AnswerKey.call) :
  forall ak : AnswerKey.t,
    form_question_ids (AnswerKey.base (AnswerKey.after_all cs ak))
    = (form_question_ids (AnswerKey.base ak)
       ++ map (fun q => PyStr (Question.id q)) (keyed_questions cs))%list.
Proof.
  unfold AnswerKey.after_all.
  induction cs as [|c cs IH]; intros ak; cbn [fold_left keyed_questions map].
  - now rewrite app_nil_r.
  - rewrite IH. destruct c as [score | question keys];
      cbn [AnswerKey.after keyed_questions map].
    + unfold AnswerKey.add_max_score.
      destruct (AnswerKey._is_score_added ak); cbn [negb fst AnswerKey.base];
        [reflexivity|].
      unfold form_question_ids, XMLWrapper.append_element.
      cbn [XMLWrapper._elements]. rewrite filter_app, map_app. cbn.
      now rewrite app_nil_r.
    + unfold AnswerKey.add_question_keys. cbn [AnswerKey.base].
      unfold form_question_ids, XMLWrapper.append_element.
      cbn [XMLWrapper._elements]. rewrite filter_app, map_app, <- app_assoc.
      reflexivity.
Qed.

Lemma keyed_questions_of_keys (qs : list Question.t)
    (keys_of : Question.t -> list (Z * list string)) (tail : list AnswerKey.call) :
  keyed_questions
    (map (fun q => AnswerKey.Add_question_keys q (keys_of q)) qs ++ tail)
  = (qs ++ keyed_questions tail)%list.
Proof. induction qs as [|q qs IH]; [reflexivity|]. cbn. now rewrite IH. Qed.

(** X15.  The form and the answer key name the same questions: for the
    questions constructed in a process, added to a form in that order and
    given keys in that order (whatever the keys, with a maximum score
    declared at the end), the identifiers in the [Question] elements of the
    answer key are those in the [Question] elements of the form, in the same
    order. *)
Theorem answer_key_names_the_questions_of_the_form :
  forall (l : list Question.args) (_ID : Z)
         (keys_of : Question.t -> list (Z * list string)) (score : Z),
    let questions := fst (Question.construct_all l _ID) in
    let form :=
      QuestionForm.after_all (map QuestionForm.Add_question questions)
        QuestionForm.__init__ in
    let answer_key :=
      AnswerKey.after_all
        (map (fun q => AnswerKey.Add_question_keys q (keys_of q)) questions
         ++ [AnswerKey.Add_max_score score])
        AnswerKey.__init__ in
    form_question_ids (AnswerKey.base answer_key) = form_question_ids form
    /\ form_question_ids form = map (fun q => PyStr (Question.id q)) questions.
Proof.
  intros l _ID keys_of score questions form answer_key.
  subst form answer_key questions.
  rewrite key_ids_after_all, keyed_questions_of_keys, form_ids_constructed.
  cbn [keyed_questions]. rewrite app_nil_r. split; reflexivity.
Qed.

Lemma value_mappings_after_all (cs : list AnswerKey.call) :
  forall ak : AnswerKey.t,
    value_mappings (XMLWrapper._elements (AnswerKey.base (AnswerKey.after_all cs ak)))
    = (value_mappings (XMLWrapper._elements (AnswerKey.base ak))
       ++ if AnswerKey._is_score_added ak then []
          else match first_score cs with
               | Some score => [value_mapping score]
               | None => []
               end)%list
    /\ AnswerKey._is_score_added (AnswerKey.after_all cs ak)
       = AnswerKey._is_score_added ak
         || match first_score cs with Some _ => true | None => false end.
Proof.
  unfold AnswerKey.after_all.
  induction cs as [|c cs IH]; intros ak; cbn [fold_left first_score].
  - split; [|now rewrite orb_false_r].
    destruct (AnswerKey._is_score_added ak); now rewrite app_nil_r.
  - destruct (IH (AnswerKey.after c ak)) as [IH1 IH2]. rewrite IH1, IH2. clear IH IH1 IH2.
    destruct c as [score | question keys]; cbn [AnswerKey.after].
    + unfold AnswerKey.add_max_score.
      destruct (AnswerKey._is_score_added ak) eqn:E;
        cbn [negb fst AnswerKey.base AnswerKey._is_score_added].
      * rewrite E. split; reflexivity.
      * unfold value_mappings, XMLWrapper.append_element.
        cbn [XMLWrapper._elements]. rewrite filter_app. cbn.
        rewrite app_nil_r. split; reflexivity.
    + unfold AnswerKey.add_question_keys.
      cbn [AnswerKey.base AnswerKey._is_score_added].
      unfold value_mappings, XMLWrapper.append_element.
      cbn [XMLWrapper._elements]. rewrite filter_app. cbn.
      rewrite app_nil_r. split; reflexivity.
Qed.

(** X16.  After any sequence of calls on a new answer key, calls that raised
    included, the key holds one [QualificationValueMapping] element when
    [add_max_score] was called at all, and none otherwise; the score it
    declares is that of the first such call, never a later one. *)
Theorem answer_key_declares_first_score_once :
  forall cs : list AnswerKey.call,
    let answer_key := AnswerKey.after_all cs AnswerKey.__init__ in
    value_mappings (XMLWrapper._elements (AnswerKey.base answer_key))
    = match first_score cs with
      | Some score => [value_mapping score]
      | None => []
      end
    /\ AnswerKey._is_score_added answer_key
       = match first_score cs with Some _ => true | None => false end
    /\ (count_tag "QualificationValueMapping"
          (XMLWrapper._elements (AnswerKey.base answer_key)) <= 1)%nat.
Proof.
  intros cs answer_key. subst answer_key.
  destruct (value_mappings_after_all cs AnswerKey.__init__) as [H1 H2].
  cbn [AnswerKey.__init__ AnswerKey._is_score_added orb] in H1, H2.
  change (value_mappings (XMLWrapper._elements (AnswerKey.base AnswerKey.__init__)))
    with (@nil ET.Element) in H1.
  cbn [app] in H1.
  split; [exact H1|]. split; [exact H2|].
  unfold count_tag. fold (value_mappings
    (XMLWrapper._elements (AnswerKey.base (AnswerKey.after_all cs AnswerKey.__init__)))).
  rewrite H1. destruct (first_score cs); cbn; lia.
Qed.

Lemma read_score_str (score : Z) : read_score (PyStr (str score)) = Some score.
Proof.
  unfold read_score, str.
  destruct (to_int_not_nil score) as [H1 H2].
  rewrite NilZero.isi by assumption.
  cbn [option_map]. now rewrite DecimalZ.of_to.
Qed.

Lemma read_identifiers (answers : list string) :
  all_some
    (map read_identifier
       (map (fun a => ET.text_element "SelectionIdentifier" (PyStr a)) answers))
  = Some answers.
Proof.
  induction answers as [|a answers IH]; [reflexivity|].
  cbn [map all_some read_identifier ET.text ET.tag ET.text_element].
  change (String.eqb "SelectionIdentifier" "SelectionIdentifier") with true.
  cbn iota. now rewrite IH.
Qed.

Lemma read_option_written (score : Z) (answers : list string) :
  read_option
    (ET.Elem "AnswerOption" [] PyNone
       (map (fun a => ET.text_element "SelectionIdentifier" (PyStr a)) answers
        ++ [ET.text_element "AnswerScore" (PyStr (str score))])%list)
  = Some (score, answers).
Proof.
  unfold read_option. cbn [ET.children].
  rewrite rev_app_distr. cbn [rev app].
  rewrite rev_involutive.
  cbn [ET.text ET.tag ET.text_element].
  rewrite read_score_str, read_identifiers. reflexivity.
Qed.

Lemma read_keys_written (keys : list (Z * list string)) :
  read_keys (AnswerKey._create_question_keys keys) = Some keys.
Proof.
  unfold read_keys, AnswerKey._create_question_keys.
  induction keys as [|[score answers] keys IH]; [reflexivity|].
  cbn [map all_some fst snd].
  rewrite read_option_written. cbn [map] in IH. rewrite IH. reflexivity.
Qed.

(** X17.  The keys given to [add_question_keys] can be read back from the
    element it appends: after the question's identifier come the
    [AnswerOption] elements, one per score in the order given, each holding
    its selection identifiers in order and its score last, as decimal text
    that parses back to the score. *)
Theorem question_keys_can_be_read_back :
  forall (question : Question.t) (keys : list (Z * list string))
         (answer_key : AnswerKey.t),
    exists options,
      XMLWrapper._elements
        (AnswerKey.base (AnswerKey.add_question_keys question keys answer_key))
      = (XMLWrapper._elements (AnswerKey.base answer_key)
         ++ [ET.Elem "Question" [] PyNone
               (ET.text_element "QuestionIdentifier" (PyStr (Question.id question))
                :: options)])%list
      /\ tags options = map (fun _ => "AnswerOption") keys
      /\ read_keys options = Some keys.
Proof.
  intros question keys answer_key.
  exists (AnswerKey._create_question_keys keys).
  split; [reflexivity|]. split; [|apply read_keys_written].
  unfold tags, AnswerKey._create_question_keys. rewrite map_map. reflexivity.
Qed.

Lemma question_keys_serializable (keys : list (Z * list string)) :
  forallb (ET.forall_nodes serializable_text) (AnswerKey._create_question_keys keys)
  = true.
Proof.
  unfold AnswerKey._create_question_keys.
  induction keys as [|[score answers] keys IH]; [reflexivity|].
  cbn [map forallb fst snd]. rewrite IH, andb_true_r.
  rewrite forall_nodes_children. cbn [serializable_text ET.text andb].
  rewrite forallb_app. cbn [forallb]. rewrite andb_true_r.
  induction answers as [|a answers IHa]; [reflexivity | exact IHa].
Qed.

Lemma answer_key_after_str_texts (c : AnswerKey.call) (ak : AnswerKey.t) :
  str_texts (AnswerKey.base (AnswerKey.after c ak)) = str_texts (AnswerKey.base ak).
Proof.
  unfold str_texts. destruct c as [score | question keys]; cbn [AnswerKey.after].
  - unfold AnswerKey.add_max_score.
    destruct (AnswerKey._is_score_added ak); cbn [negb fst AnswerKey.base];
      [reflexivity|].
    unfold XMLWrapper.append_element. cbn [XMLWrapper._elements].
    rewrite forallb_app. cbn. apply andb_true_r.
  - unfold AnswerKey.add_question_keys, XMLWrapper.append_element.
    cbn [AnswerKey.base XMLWrapper._elements].
    rewrite forallb_app. cbn [forallb].
    rewrite forall_nodes_children. cbn [forallb serializable_text ET.text andb].
    replace (ET.forall_nodes serializable_text
               (AnswerKey._create_question_id (Question.id question))) with true
      by reflexivity.
    cbn [andb]. rewrite question_keys_serializable. now rewrite !andb_true_r.
Qed.

(** X18.  An answer key can always be rendered (without pretty-printing),
    after any sequence of calls, with any scores and any questions: every
    score is stored as its decimal text.  This holds also for a question
    that cannot be rendered itself. *)
Theorem answer_key_rendering_never_raises :
  forall (cs : list AnswerKey.call) (url_safe : bool) (indent : Z),
    is_ok
      (AnswerKey.to_string (AnswerKey.after_all cs AnswerKey.__init__)
         None url_safe false indent) = true.
Proof.
  intros cs url_safe indent. unfold AnswerKey.to_string.
  rewrite to_string_unformatted_ok.
  fold (str_texts (AnswerKey.base (AnswerKey.after_all cs AnswerKey.__init__))).
  assert (H : forall ak,
             str_texts (AnswerKey.base (AnswerKey.after_all cs ak))
             = str_texts (AnswerKey.base ak)).
  { unfold AnswerKey.after_all.
    induction cs as [|c cs IH]; intros ak; cbn [fold_left]; [reflexivity|].
    now rewrite IH, answer_key_after_str_texts. }
  rewrite H. reflexivity.
Qed.

(* ================================================================== *)
(** ** Further properties: AmazonIAMUser                                *)
(* ================================================================== *)

Lemma split_not_nil (s : string) : split "." s <> [].
Proof.
  induction s as [|c s IH]; cbn [split]; [discriminate|].
  destruct (Ascii.eqb c "."); [discriminate|].
  destruct (split "." s); [contradiction | discriminate].
Qed.

Lemma split_before_dot (a b : string) :
  exists p pre, split "." (a ++ String "." b) = ((p :: pre) ++ split "." b)%list.
Proof.
  induction a as [|c a [p [pre IH]]].
  - exists "", []. reflexivity.
  - cbn [append split]. rewrite IH.
    destruct (Ascii.eqb c ".").
    + exists "", (p :: pre). reflexivity.
    + exists (String c p), pre. reflexivity.
Qed.

Lemma last_app_not_nil {A : Type} (l1 l2 : list A) (d : A) :
  l2 <> [] -> last (l1 ++ l2) d = last l2 d.
Proof.
  intros H. induction l1 as [|x l1 IH]; [reflexivity|].
  cbn [app last]. destruct (l1 ++ l2)%list eqn:E.
  - apply app_eq_nil in E as [_ E]. contradiction.
  - exact IH.
Qed.

(** The extension of [stem.ext] is [ext], whatever dots the stem has. *)
Lemma extension_of_suffix (stem ext : string) :
  all_chars not_dot ext = true ->
  AmazonIAMUser.extension (stem ++ String "." ext) = ext.
Proof.
  intros H. unfold AmazonIAMUser.extension, last_segment.
  destruct (split_before_dot stem ext) as [p [pre E]]. rewrite E.
  rewrite last_app_not_nil by apply split_not_nil.
  now rewrite (split_without_separator ext H).
Qed.

(** X19.  A path ending in [.csv] is read with the CSV loader and a path
    ending in [.json] with the JSON loader, whatever comes before the
    extension (dots in directory names included): exactly that path is
    opened, once; when the file cannot be read or the loader fails, the
    error is passed on and no credential field changes; otherwise the record
    goes to [_update_fields]. *)
Theorem from_file_dispatches_on_suffix :
  forall (file_contents : string -> Result string)
         (csv_first_row json_load : string -> Result (dict string))
         (stem : string) (self : AmazonIAMUser.t) (log : AmazonIAMUser.opened),
    AmazonIAMUser.from_file file_contents csv_first_row json_load
      (stem ++ ".csv") self log
    = match loaded file_contents csv_first_row (stem ++ ".csv") with
      | Raise e => (self, (log ++ [(stem ++ ".csv")%string])%list, Raise e)
      | Ok credentials =>
          (fst (AmazonIAMUser._update_fields credentials self),
           (log ++ [(stem ++ ".csv")%string])%list,
           snd (AmazonIAMUser._update_fields credentials self))
      end
    /\ AmazonIAMUser.from_file file_contents csv_first_row json_load
         (stem ++ ".json") self log
       = match loaded file_contents json_load (stem ++ ".json") with
         | Raise e => (self, (log ++ [(stem ++ ".json")%string])%list, Raise e)
         | Ok credentials =>
             (fst (AmazonIAMUser._update_fields credentials self),
              (log ++ [(stem ++ ".json")%string])%list,
              snd (AmazonIAMUser._update_fields credentials self))
         end.
Proof.
  intros. unfold AmazonIAMUser.from_file.
  rewrite (extension_of_suffix stem "csv" eq_refl).
  rewrite (extension_of_suffix stem "json" eq_refl).
  change (String.eqb "csv" "csv") with true.
  change (String.eqb "json" "csv") with false.
  change (String.eqb "json" "json") with true.
  cbn iota. unfold AmazonIAMUser._load_csv, AmazonIAMUser._load_json, loaded.
  split.
  - destruct (file <- file_contents (stem ++ ".csv") ;; csv_first_row file)
      as [credentials|e]; [|reflexivity].
    now destruct (AmazonIAMUser._update_fields credentials self).
  - destruct (file <- file_contents (stem ++ ".json") ;; json_load file)
      as [credentials|e]; [|reflexivity].
    now destruct (AmazonIAMUser._update_fields credentials self).
Qed.

Lemma dict_mem_get {V : Type} (k : string) (d : dict V) :
  dict_mem k d = is_ok (dict_get k d).
Proof.
  unfold dict_mem. induction d as [|[k' v] d IH]; [reflexivity|].
  cbn [existsb dict_get fst]. destruct (String.eqb k' k); [reflexivity | exact IH].
Qed.

Lemma dict_get_cases {V : Type} (k : string) (d : dict V) :
  (exists v, dict_get k d = Ok v) \/ dict_get k d = Raise (KeyError k).
Proof.
  induction d as [|[k' v] d IH]; [now right|].
  cbn [dict_get]. destruct (String.eqb k' k); [left; now exists v | exact IH].
Qed.

(** X20.  [_update_fields] assigns the five fields in order and stops at the
    first key the record lacks: it returns exactly when the record has all
    five keys, and raises [KeyError] for the first missing key otherwise;
    each field holds the record's value when its own key and all keys before
    it are present, and what it held before otherwise - so after a
    [KeyError] the fields before the missing key are already overwritten. *)
Theorem update_fields_stops_at_first_missing_key :
  forall (credentials : dict string) (self : AmazonIAMUser.t),
    let after := fst (AmazonIAMUser._update_fields credentials self) in
    snd (AmazonIAMUser._update_fields credentials self)
    = match first_missing credentials with
      | None => Ok tt
      | Some k => Raise (KeyError k)
      end
    /\ AmazonIAMUser.user_name after
       = (if has_first 1 credentials then stored "User name" credentials
          else AmazonIAMUser.user_name self)
    /\ AmazonIAMUser.password after
       = (if has_first 2 credentials then stored "Password" credentials
          else AmazonIAMUser.password self)
    /\ AmazonIAMUser.access_key_id after
       = (if has_first 3 credentials then stored "Access key ID" credentials
          else AmazonIAMUser.access_key_id self)
    /\ AmazonIAMUser.secret_access_key after
       = (if has_first 4 credentials then stored "Secret access key" credentials
          else AmazonIAMUser.secret_access_key self)
    /\ AmazonIAMUser.console_login_link after
       = (if has_first 5 credentials then stored "Console login link" credentials
          else AmazonIAMUser.console_login_link self).
Proof.
  intros credentials self after. subst after.
  unfold first_missing, has_first, stored, credential_keys,
    AmazonIAMUser._update_fields.
  cbn [find firstn forallb].
  rewrite !dict_mem_get.
  destruct (dict_get_cases "User name" credentials) as [[v1 E1]|E1]; rewrite E1;
    [|repeat split].
  destruct (dict_get_cases "Password" credentials) as [[v2 E2]|E2]; rewrite E2;
    [|repeat split].
  destruct (dict_get_cases "Access key ID" credentials) as [[v3 E3]|E3];
    rewrite E3; [|repeat split].
  destruct (dict_get_cases "Secret access key" credentials) as [[v4 E4]|E4];
    rewrite E4; [|repeat split].
  destruct (dict_get_cases "Console login link" credentials) as [[v5 E5]|E5];
    rewrite E5; repeat split.
Qed.

(* ================================================================== *)
(** ** Further properties: SelectionAnswer, add_image, lengths          *)
(* ================================================================== *)

Lemma read_selections_written (selections : dict string) :
  all_some
    (map read_selection
       (map (fun kv =>
               ET.Elem "Selection" [] PyNone
                 [ET.text_element "SelectionIdentifier" (PyStr (fst kv));
                  ET.text_element "Text" (PyStr (snd kv))])
            selections))
  = Some selections.
Proof.
  induction selections as [|[i s] selections IH]; [reflexivity|].
  cbn [map all_some]. rewrite IH. reflexivity.
Qed.

(** X22.  The elements of a [SelectionAnswer] come in a fixed order:
    [MinSelectionCount], [MaxSelectionCount], [StyleSuggestion] - each only
    when its argument is given (non-zero, non-empty) - and then always one
    [Selections] element, last, from which the selections can be read back
    in the order they were given. *)
Theorem selection_answer_lists_selections_in_order :
  forall (selections : dict string) (answer_style : option string)
         (min_selections max_selections : option Z),
    exists front options,
      XMLWrapper._elements
        (SelectionAnswer.__init__ selections answer_style
           min_selections max_selections)
      = (front ++ [ET.Elem "Selections" [] PyNone options])%list
      /\ tags front
         = ((if truthy_opt_int min_selections then ["MinSelectionCount"] else [])
            ++ (if truthy_opt_int max_selections then ["MaxSelectionCount"] else [])
            ++ (if truthy_opt_str answer_style then ["StyleSuggestion"] else []))%list
      /\ tags options = map (fun _ => "Selection") selections
      /\ all_some (map read_selection options) = Some selections.
Proof.
  intros.
  unfold SelectionAnswer.__init__, SelectionAnswer._add_selections,
    XMLWrapper.append_element.
  cbn [XMLWrapper._elements].
  eexists. eexists. split; [reflexivity|].
  split; [|split].
  - destruct min_selections as [a|], max_selections as [b|],
        answer_style as [[|c s]|]; cbn [truthy_opt_int truthy_opt_str truthy_str];
      try destruct (truthy_int a); try destruct (truthy_int b); reflexivity.
  - unfold tags. rewrite map_map. reflexivity.
  - apply read_selections_written.
Qed.

Lemma last_segment_of_suffix (stem ext : string) :
  all_chars not_dot ext = true ->
  last_segment (split "." (stem ++ String "." ext)) = ext.
Proof. exact (extension_of_suffix stem ext). Qed.

(** X23.  For a URL of the form [stem.ext], where [ext] has no dot,
    [add_image] derives the subtype from [ext]: the [MimeType] holds
    [SubType] with text [ext] when [ext] is not empty, and no [SubType] when
    the URL ends in a dot. *)
Theorem add_image_subtype_is_text_after_last_dot :
  forall (stem ext alt_text : string),
    all_chars not_dot ext = true ->
    XMLWrapper._elements
      (Content.add_image (stem ++ "." ++ ext) alt_text Content.__init__)
    = [ET.Elem "Binary" [] PyNone
         [ET.Elem "MimeType" [] PyNone
            (ET.Elem "Type" [] (PyStr "image") []
             :: if truthy_str ext
                then [ET.Elem "SubType" [] (PyStr ext) []]
                else []);
          ET.Elem "DataURL" [] (PyStr (stem ++ "." ++ ext)) [];
          ET.Elem "AltText" [] (PyStr alt_text) []]].
Proof.
  intros stem ext alt_text H.
  rewrite add_image_elements.
  change (stem ++ "." ++ ext) with (stem ++ String "." ext).
  now rewrite (last_segment_of_suffix stem ext H).
Qed.

Lemma add_image_subtype_is_text_after_last_dot_witness :
  all_chars not_dot "gif" = true
  /\ XMLWrapper._elements
       (Content.add_image ("http://tictactoe.amazon.com/game/01523/board" ++ "." ++ "gif")
          "The game board, with 'X' to move." Content.__init__)
     = [ET.Elem "Binary" [] PyNone
          [ET.Elem "MimeType" [] PyNone
             [ET.Elem "Type" [] (PyStr "image") [];
              ET.Elem "SubType" [] (PyStr "gif") []];
           ET.Elem "DataURL" []
             (PyStr "http://tictactoe.amazon.com/game/01523/board.gif") [];
           ET.Elem "AltText" [] (PyStr "The game board, with 'X' to move.") []]].
Proof.
  split; [reflexivity|].
  apply (add_image_subtype_is_text_after_last_dot
           "http://tictactoe.amazon.com/game/01523/board" "gif").
  reflexivity.
Defined.

(** X24.  How many elements the objects hold: a [Question] four, and a
    fifth exactly when a non-empty name is given; a [SelectionAnswer] one
    plus one for each count and style given; a [FreeTextAnswer] one for the
    constraints if any is given, one for a non-empty default text and one
    for a non-zero line count - so at most 5, 4 and 3. *)
Theorem numbers_of_elements :
  (forall content answer name is_required question_id _ID,
      XMLWrapper.__len__
        (Question.base
           (fst (Question.__init__ content answer name is_required question_id _ID)))
      = (4 + count_if (truthy_opt_str name))%nat)
  /\ (forall selections answer_style min_selections max_selections,
        XMLWrapper.__len__
          (SelectionAnswer.__init__ selections answer_style
             min_selections max_selections)
        = (1 + count_if (truthy_opt_int min_selections)
           + count_if (truthy_opt_int max_selections)
           + count_if (truthy_opt_str answer_style))%nat)
  /\ (forall default_text lines_in_box reg_exp error_text min_length max_length
             is_numeric min_val max_val,
        XMLWrapper.__len__
          (FreeTextAnswer.__init__ default_text lines_in_box reg_exp error_text
             min_length max_length is_numeric min_val max_val)
        = (count_if (any [truthy_opt_str reg_exp; truthy_opt_int min_length;
                           truthy_opt_int max_length; is_numeric])
           + count_if (truthy_opt_str default_text)
           + count_if (truthy_opt_int lines_in_box))%nat).
Proof.
  split; [|split].
  - intros. unfold Question.__init__.
    destruct name as [[|c s]|]; reflexivity.
  - intros. unfold SelectionAnswer.__init__.
    destruct min_selections as [a|], max_selections as [b|],
        answer_style as [[|c s]|]; cbn [truthy_opt_int truthy_opt_str truthy_str];
      try destruct (truthy_int a); try destruct (truthy_int b); reflexivity.
  - intros. unfold FreeTextAnswer.__init__, FreeTextAnswer._add_constraints.
    destruct default_text as [[|c d]|], lines_in_box as [[|n|n]|],
        reg_exp as [[|c' r]|], min_length as [[|a|a]|], max_length as [[|b|b]|],
        is_numeric; reflexivity.
Qed.
